(** * webdriver/webapp_server.go: the app-server handle of the webdriver tests

    A shallow embedding of [webapp_server.go]: the two [AppServer]
    implementations ([remoteAppServer], [devAppServerInstance]), the
    stderr scanner of [AwaitReady], the shutdown protocol of [Close] and
    the selection layer [NewWebserver].

    Go strings are byte sequences: they are modelled by [string], whose
    characters are the 256 values of [ascii].  Everything the operating
    system, the child process, the clock and the Go libraries decide
    (whether [cmd.Start] fails, what the child prints on stderr, which of
    the two channels of a [select] is ready first, what [http.Get]
    answers) is an explicit environment argument of the function that
    asks for it; calls made on the child process are recorded in a trace
    of events. *)

From Stdlib Require Import String Ascii List ZArith Bool Arith Lia DecimalString.
Import ListNotations.
Local Open Scope string_scope.

(** * Byte-string helpers *)

Module Bytes.

(** [strip_prefix p s] is the rest of [s] after a leading [p]. *)
Fixpoint strip_prefix (p s : string) : option string :=
  match p, s with
  | EmptyString, _ => Some s
  | String _ _, EmptyString => None
  | String a p', String b s' =>
      if Ascii.eqb a b then strip_prefix p' s' else None
  end.

(** [contains p s]: [p] occurs in [s] (strings.Contains). *)
Fixpoint contains (p s : string) : bool :=
  match strip_prefix p s with
  | Some _ => true
  | None => match s with
            | EmptyString => false
            | String _ s' => contains p s'
            end
  end.

Fixpoint forallb (f : ascii -> bool) (s : string) : bool :=
  match s with
  | EmptyString => true
  | String a s' => f a && forallb f s'
  end.

(** The double quote, byte 34. *)
Definition dquote : ascii := Eval cbv in ascii_of_nat 34.

Definition between (lo hi : nat) (c : ascii) : bool :=
  ((lo <=? nat_of_ascii c) && (nat_of_ascii c <=? hi))%nat.

Definition is_lower (c : ascii) : bool := between 97 122 c.
Definition is_upper (c : ascii) : bool := between 65 90 c.
Definition is_digit (c : ascii) : bool := between 48 57 c.

Definition to_lower (c : ascii) : ascii :=
  if is_upper c then ascii_of_nat (nat_of_ascii c + 32) else c.

Fixpoint map (f : ascii -> ascii) (s : string) : string :=
  match s with
  | EmptyString => EmptyString
  | String a s' => String (f a) (map f s')
  end.

End Bytes.

(** * fmt verbs

    [%s] copies a string operand; [%d] writes an [int] in decimal, with a
    leading minus sign when it is negative. *)

Module Fmt.

Definition d (n : Z) : string := NilZero.string_of_int (Z.to_int n).

End Fmt.

(** * The three patterns of the stderr scanner

    [regexp.FindStringSubmatch] returns the leftmost match.  [AwaitReady]
    uses only whether there is one and, for the two endpoint patterns,
    the first submatch [match[1]]; these functions return exactly that.

    [\S] is the complement of [\s], which in Go's syntax is the class
    [[\t\n\f\r ]]: bytes 9, 10, 12, 13 and 32.  For a pattern made of a
    literal followed by [(\S+)], the leftmost match starts at the first
    occurrence of the literal that is followed by a non-space byte, and
    the greedy [\S+] takes the whole run of non-space bytes there.  Bytes
    of a multi-byte rune are all above 127, hence never space, so the
    match on bytes is the match on runes. *)

Module Regexp.

Definition is_space (c : ascii) : bool :=
  let n := nat_of_ascii c in
  ((n =? 9) || (n =? 10) || (n =? 12) || (n =? 13) || (n =? 32))%nat.

(** The longest prefix of [s] matching [\S*]. *)
Fixpoint nonspace_run (s : string) : string :=
  match s with
  | EmptyString => EmptyString
  | String c s' => if is_space c then EmptyString
                   else String c (nonspace_run s')
  end.

(** A match of [lit(\S+)] anchored at the start of [s]: its submatch. *)
Definition match_here (lit s : string) : option string :=
  match Bytes.strip_prefix lit s with
  | Some rest => match nonspace_run rest with
                 | EmptyString => None
                 | tok => Some tok
                 end
  | None => None
  end.

(** Submatch 1 of the leftmost match of [lit(\S+)] in [s]. *)
Fixpoint find_submatch (lit s : string) : option string :=
  match match_here lit s with
  | Some tok => Some tok
  | None => match s with
            | EmptyString => None
            | String _ s' => find_submatch lit s'
            end
  end.

(** The literal part of [hostRE]: Starting module, the word default
    between double quotes, then running at: and a space. *)
Definition hostLiteral : string :=
  "Starting module " ++ String Bytes.dquote ("default" ++ String Bytes.dquote " running at: ").
Definition adminLiteral : string := "Starting admin server at: ".
Definition readyLiteral : string := "GET /_ah/warmup".

(** [hostRE.FindStringSubmatch(s)]: [None] for nil, else [match[1]]. *)
Definition hostRE (s : string) : option string := find_submatch hostLiteral s.

(** [adminURLRE.FindStringSubmatch(s)]: [None] for nil, else [match[1]]. *)
Definition adminURLRE (s : string) : option string := find_submatch adminLiteral s.

(** [readyRE.FindStringSubmatch(s) != nil]. *)
Definition readyRE (s : string) : bool := Bytes.contains readyLiteral s.

End Regexp.

(** * net/url

    [url.Parse] and the [String] method of [URL] belong to Go's library,
    not to this package: the server code is modelled over any
    implementation of the two.  [url_Parse s] is [inl u] when Go returns [(u, nil)] and [inr e]
    when it returns [(nil, err)], [e] being the text of [err]. *)

Class NetURL : Type := {
  URL : Type;
  url_Parse : string -> URL + string;
  url_String : URL -> string
}.

(** An implementation for the addresses dev_appserver.py prints, used to
    run the model on concrete streams.  It follows [url.Parse] on raw URLs
    of the shape [scheme://authority[/path]] written with letters,
    digits and [- . _ ~ : /] only: no query, fragment, user info, escape
    or bracketed address.  On these, [Parse] splits off the scheme with
    [getScheme], lower-cases it, cuts the authority at the first slash,
    checks with [validOptionalPort] what follows the last colon of the
    authority, and keeps the rest as the path; [String] writes the parts
    back, none of which needs escaping.  Any other input is outside this
    implementation and reported as an error. *)

Module GoURL.

Record url : Type := { Scheme : string; Host : string; Path : string }.

Definition one_of (cs : string) (c : ascii) : bool :=
  negb (Bytes.forallb (fun x => negb (Ascii.eqb x c)) cs).

(** The bytes of the raw URLs this implementation covers. *)
Definition plain (c : ascii) : bool :=
  Bytes.is_lower c || Bytes.is_upper c || Bytes.is_digit c || one_of "-._~:/" c.

Inductive scheme_result : Type :=
| NoScheme                              (* no scheme: (empty, rawURL, nil) *)
| MissingScheme                         (* error: missing protocol scheme *)
| HasScheme (scheme rest : string).     (* (rawURL[:i], rawURL[i+1:], nil) *)

Definition push (c : ascii) (r : scheme_result) : scheme_result :=
  match r with
  | HasScheme sc rest => HasScheme (String c sc) rest
  | other => other
  end.

(** [getScheme]: the loop over the bytes of [rawURL]; [first] is [i == 0]. *)
Fixpoint getScheme_loop (first : bool) (s : string) : scheme_result :=
  match s with
  | EmptyString => NoScheme
  | String c s' =>
      if Bytes.is_lower c || Bytes.is_upper c then push c (getScheme_loop false s')
      else if Bytes.is_digit c || one_of "+-." c then
        if first then NoScheme else push c (getScheme_loop false s')
      else if Ascii.eqb c ":" then
        if first then MissingScheme else HasScheme EmptyString s'
      else NoScheme
  end.

Definition getScheme (rawURL : string) : scheme_result := getScheme_loop true rawURL.

(** [authority, rest = authority[:i], authority[i:]] at the first slash. *)
Fixpoint split_authority (s : string) : string * string :=
  match s with
  | EmptyString => (EmptyString, EmptyString)
  | String c s' =>
      if Ascii.eqb c "/" then (EmptyString, s)
      else let (a, r) := split_authority s' in (String c a, r)
  end.

(** What follows the last colon of [host], if it has one. *)
Fixpoint after_last_colon (host : string) : option string :=
  match host with
  | EmptyString => None
  | String c s' =>
      match after_last_colon s' with
      | Some r => Some r
      | None => if Ascii.eqb c ":" then Some s' else None
      end
  end.

(** [parseHost] without brackets or escapes: [None] when the port is
    valid or absent, else the rejected port digits. *)
Definition bad_port (host : string) : option string :=
  match after_last_colon host with
  | Some digits => if Bytes.forallb Bytes.is_digit digits then None else Some digits
  | None => None
  end.

Definition unsupported : string := "net/url: input outside the modelled URLs".

Definition quoted (s : string) : string :=
  String Bytes.dquote (s ++ String Bytes.dquote EmptyString).

(** The text of [&Error{Op: parse, URL: rawURL, Err: cause}]. *)
Definition parse_error (rawURL cause : string) : string :=
  "parse " ++ quoted rawURL ++ ": " ++ cause.

Definition Parse (rawURL : string) : url + string :=
  if negb (Bytes.forallb plain rawURL) then inr unsupported
  else match getScheme rawURL with
       | MissingScheme => inr (parse_error rawURL "missing protocol scheme")
       | NoScheme => inr unsupported
       | HasScheme scheme rest =>
           match Bytes.strip_prefix "//" rest with
           | None => inr unsupported
           | Some after =>
               let (authority, path) := split_authority after in
               match bad_port authority with
               | Some digits =>
                   inr (parse_error rawURL
                          ("invalid port " ++ quoted (":" ++ digits) ++ " after host"))
               | None => inl {| Scheme := Bytes.map Bytes.to_lower scheme;
                                Host := authority;
                                Path := path |}
               end
           end
       end.

Definition is_empty (s : string) : bool :=
  match s with EmptyString => true | _ => false end.

Definition String_ (u : url) : string :=
  Scheme u ++ ":"
    ++ (if is_empty (Host u) && is_empty (Path u) then EmptyString else "//")
    ++ Host u ++ Path u.

#[export] Instance impl : NetURL :=
  {| URL := url; url_Parse := Parse; url_String := String_ |}.

End GoURL.

(** * Errors, panics and the trace of calls *)

(** The error values of this file.  [External] stands for an error made
    by a library ([os/exec], [net/http], [bufio], [io]), carried by its
    text. *)
Inductive error : Type :=
| External (text : string)
| New (text : string)
    (* errors.New(text) *)
| ParseURLf (token cause : string)
    (* fmt.Errorf("failed to parse URL %q: %v", token, cause) *)
| ReadStderrf (cause : error)
    (* fmt.Errorf("error reading web_server.sh process stderr: %v", cause) *)
| QuitHandlerf (cause : string).
    (* fmt.Errorf("unable to call /quit handler: %v", cause) *)

Definition errTimeoutStarting : error := New "timeout starting child process".
Definition errNoWebserverURL : error := New "unable to find webserver URL".
Definition errTimeoutKilling : error := New "timeout killing child process".

(** What a [panic] carries. *)
Inductive panic_value : Type :=
| PanicError (e : error)       (* panic(err) *)
| PanicText (text : string)    (* panic(err.Error()) *)
| NilDereference.              (* a method called through a nil pointer *)

(** A call either returns or panics. *)
Inductive outcome (A : Type) : Type :=
| Returned (a : A)
| Panicked (v : panic_value).
Arguments Returned {A} a.
Arguments Panicked {A} v.

(** Calls made on the child process, the clock and the network, in order. *)
Inductive event : Type :=
| CmdStart                   (* i.cmd.Start() *)
| CmdWait                    (* go func() { errc <- i.cmd.Wait() }() *)
| ProcessKill                (* i.cmd.Process.Kill() *)
| HTTPGet (url : string)     (* http.Get(url) *)
| BodyClose                  (* res.Body.Close() *)
| TimeAfter (d : Z).         (* time.After(d) *)

(** [time.Duration] counts nanoseconds. *)
Definition Second : Z := 1000000000.

(** * remoteAppServer *)

Module remoteAppServer.

Record t : Type := { host : string }.

Definition GetWebappURL (i : t) (path : string) : string :=
  "https://" ++ host i ++ path.

Definition Close (i : t) : option error := None.

End remoteAppServer.

(** * devAppServerInstance *)

(** What [s.Scan()] does once the lines of the stream are used up.  The
    scanner reads the child's stderr through [io.TeeReader]: an error of
    the pipe or of the copy to [os.Stderr], or a line too long for the
    scanner's buffer, is a [ReadError]. *)
Inductive stream_end : Type :=
| EOF (delay : N)                        (* Scan is false, s.Err() is nil *)
| ReadError (delay : N) (text : string)  (* Scan is false, s.Err() is not nil *)
| Stalled.                               (* Scan blocks and never returns *)

(** The world [AwaitReady] runs in.  Each line comes with the time, in
    nanoseconds, for which the call of [s.Scan()] that returns it blocks. *)
Record startup : Type := {
  start_error : option string;          (* the error of i.cmd.Start(), if any *)
  stderr_lines : list (N * string);     (* successive values of s.Text() *)
  stderr_end : stream_end
}.

(** The world [Close] runs in. *)
Record shutdown : Type := {
  (* the error of http.Get(url); None when a response came back *)
  http_Get : string -> option string;
  (* i.cmd.Wait() returns this error, this many nanoseconds after the
     select starts to wait; None when the child never exits *)
  wait_result : option (N * option string)
}.

Module devAppServerInstance.
Section WithURL.

Context `{NetURL}.

(** [*exec.Cmd], as far as this file looks into it: [Path] is the name
    and [Args] the arguments given to [exec.Command]; [Process] is
    whether [cmd.Process] is not nil. *)
Record Cmd : Type := { Path : string; Args : list string; Process : bool }.

Record t : Type := {
  cmd : Cmd;
  startupTimeout : Z;
  host : string;
  port : Z;
  apiPort : Z;
  baseURL : option URL;
  adminURL : option URL
}.

Definition set_baseURL (i : t) (u : URL) : t :=
  {| cmd := cmd i; startupTimeout := startupTimeout i; host := host i;
     port := port i; apiPort := apiPort i;
     baseURL := Some u; adminURL := adminURL i |}.

Definition set_adminURL (i : t) (u : URL) : t :=
  {| cmd := cmd i; startupTimeout := startupTimeout i; host := host i;
     port := port i; apiPort := apiPort i;
     baseURL := baseURL i; adminURL := Some u |}.

(** A successful [cmd.Start()] sets [cmd.Process]. *)
Definition started (i : t) : t :=
  {| cmd := {| Path := Path (cmd i); Args := Args (cmd i); Process := true |};
     startupTimeout := startupTimeout i; host := host i;
     port := port i; apiPort := apiPort i;
     baseURL := baseURL i; adminURL := adminURL i |}.

Definition GetWebappURL (i : t) (path : string) : string :=
  match baseURL i with
  | Some u => url_String u ++ path
  | None => "http://" ++ host i ++ ":" ++ Fmt.d (port i) ++ path
  end.

(** ** The scanner of [AwaitReady] *)

(** One turn of the loop body on the line [text]. *)
Inductive line_result : Type :=
| Break                        (* the ready pattern matched *)
| Next (i : t)                 (* go on with the next line *)
| Fail (i : t) (e : error).    (* errc <- e; return *)

Definition scan_admin (i : t) (text : string) : line_result :=
  match Regexp.adminURLRE text with
  | Some token =>
      match url_Parse token with
      | inr err => Fail i (ParseURLf token err)
      | inl u => Next (set_adminURL i u)
      end
  | None => Next i
  end.

Definition scan_line (i : t) (text : string) : line_result :=
  if Regexp.readyRE text then Break
  else match Regexp.hostRE text with
       | Some token =>
           match url_Parse token with
           | inr err => Fail i (ParseURLf token err)
           | inl u => scan_admin (set_baseURL i u) text
           end
       | None => scan_admin i text
       end.

(** What the [select] of [AwaitReady] receives first. *)
Inductive received : Type :=
| Sent (err : option error)    (* err := <-errc *)
| Expired.                     (* <-time.After(i.startupTimeout) *)

(** The scanning goroutine against the timer.  [elapsed] is the time
    since [AwaitReady] started to wait.  The goroutine's value reaches
    the [select] first when it is sent before [deadline]; sent at the
    very instant the timer fires, Go takes either one, the model the
    timer.  The instance is returned as the goroutine has left it at
    that moment. *)
Fixpoint scanner (deadline elapsed : Z) (lines : list (N * string))
         (tail : stream_end) (i : t) : t * received :=
  match lines with
  | [] =>
      match tail with
      | EOF delay =>
          if (elapsed + Z.of_N delay <? deadline)%Z then (i, Sent None)
          else (i, Expired)
      | ReadError delay text =>
          if (elapsed + Z.of_N delay <? deadline)%Z
          then (i, Sent (Some (External text)))
          else (i, Expired)
      | Stalled => (i, Expired)
      end
  | (delay, text) :: rest =>
      let now := (elapsed + Z.of_N delay)%Z in
      if (now <? deadline)%Z then
        match scan_line i text with
        | Break => (i, Sent None)
        | Fail i' e => (i', Sent (Some e))
        | Next i' => scanner deadline now rest tail i'
        end
      else (i, Expired)
  end.

Definition AwaitReady (env : startup) (i : t) : t * list event * option error :=
  match start_error env with
  | Some err => (i, [CmdStart], Some (External err))
  | None =>
      let timer := TimeAfter (startupTimeout i) in
      match scanner (startupTimeout i) 0 (stderr_lines env) (stderr_end env)
                    (started i) with
      | (i', Expired) =>
          (i',
           CmdStart :: timer :: (if Process (cmd i') then [ProcessKill] else []),
           Some errTimeoutStarting)
      | (i', Sent (Some err)) =>
          (i', [CmdStart; timer], Some (ReadStderrf err))
      | (i', Sent None) =>
          match baseURL i' with
          | None => (i', [CmdStart; timer], Some errNoWebserverURL)
          | Some _ => (i', [CmdStart; timer], None)
          end
      end
  end.

(** ** Close *)

Definition gracePeriod : Z := 15 * Second.

(** [i.cmd.Process.Kill()] after the calls [before]: through a nil
    [Process] the call panics. *)
Definition kill_then (i : t) (before : list event) (err : error)
  : list event * outcome (option error) :=
  if Process (cmd i) then ((before ++ [ProcessKill])%list, Returned (Some err))
  else (before, Panicked NilDereference).

Definition Close (env : shutdown) (i : t) : list event * outcome (option error) :=
  match adminURL i with
  | None => ([CmdWait], Panicked NilDereference)
  | Some u =>
      let quit := url_String u ++ "/quit" in
      match http_Get env quit with
      | Some err => kill_then i [CmdWait; HTTPGet quit] (QuitHandlerf err)
      | None =>
          let waited := [CmdWait; HTTPGet quit; BodyClose; TimeAfter gracePeriod] in
          match wait_result env with
          | Some (delay, err) =>
              if (Z.of_N delay <? gracePeriod)%Z
              then (waited, Returned (option_map External err))
              else kill_then i waited errTimeoutKilling
          | None => kill_then i waited errTimeoutKilling
          end
      end
  end.

End WithURL.
End devAppServerInstance.

Arguments devAppServerInstance.t {_}.
Arguments devAppServerInstance.line_result {_}.
Arguments devAppServerInstance.Break {_}.

(** * The selection layer *)

(** The two command-line flags. *)
Record flags : Type := { staging : bool; remoteHost : string }.

(** The world [newDevAppServer] runs in. *)
Record construction : Type := {
  pickUnusedPort : Z * Z;            (* the two calls, in order *)
  filepath_Abs : string + string;    (* the path, or the error's text *)
  StderrPipe : option string         (* the error of s.cmd.StderrPipe() *)
}.

(** The world [addStaticData] runs in. *)
Record seeding : Type := {
  seed_Start : option string;        (* the error of cmd.Start() *)
  seed_Wait : option string          (* the error of cmd.Wait() *)
}.

Section Selection.

Context `{NetURL}.

Import devAppServerInstance.

(** A value of the interface [AppServer]: one of its two implementers;
    the pointer to a [devAppServerInstance] may be nil. *)
Inductive AppServer : Type :=
| Remote (s : remoteAppServer.t)
| DevAppServer (s : option t).

Definition devAppServerArgs (port apiPort : Z) (absAppYAMLPath : string)
  : list string :=
  [ "--port=" ++ Fmt.d port;
    "--api_port=" ++ Fmt.d apiPort;
    "--admin_port=" ++ Fmt.d 0;
    "--automatic_restart=false";
    "--support_datastore_emulator=false";
    "--skip_sdk_update_check=true";
    "--clear_datastore=true";
    "--datastore_consistency_policy=consistent";
    "--clear_search_indexes=true";
    "-A=wptdashboard";
    absAppYAMLPath ].

Definition newDevAppServer (env : construction)
  : outcome (option t * option error) :=
  let s_port := fst (pickUnusedPort env) in
  let s_apiPort := snd (pickUnusedPort env) in
  match filepath_Abs env with
  | inr err => Panicked (PanicText err)
  | inl absAppYAMLPath =>
      match StderrPipe env with
      | Some err => Returned (None, Some (External err))
      | None =>
          Returned
            (Some {| cmd := {| Path := "dev_appserver.py";
                               Args := devAppServerArgs s_port s_apiPort absAppYAMLPath;
                               Process := false |};
                     startupTimeout := 90 * Second;
                     host := "localhost";
                     port := s_port;
                     apiPort := s_apiPort;
                     baseURL := None;
                     adminURL := None |},
             None)
      end
  end.

Definition addStaticData (env : seeding) (i : t) : option error :=
  match seed_Start env with
  | Some err => Some (External err)
  | None => option_map External (seed_Wait env)
  end.

Definition NewWebserver (fl : flags) (c : construction) (s : startup)
           (d : seeding) : outcome (AppServer * option error) :=
  if staging fl then
    Returned (Remote {| remoteAppServer.host := remoteHost fl |}, None)
  else
    match newDevAppServer c with
    | Panicked v => Panicked v
    | Returned (app, Some err) => Returned (DevAppServer app, Some err)
    | Returned (None, None) => Panicked NilDereference
    | Returned (Some app, None) =>
        match AwaitReady s app with
        | (_, _, Some err) => Panicked (PanicError err)
        | (app', _, None) =>
            match addStaticData d app' with
            | Some err => Panicked (PanicError err)
            | None => Returned (DevAppServer (Some app'), None)
            end
        end
    end.

End Selection.

(** * Concrete runs: a constructed instance and some stderr streams *)

Module Sample.

Import devAppServerInstance.

Definition construction_ok : construction :=
  {| pickUnusedPort := (8080%Z, 8081%Z);
     filepath_Abs := inl "/wpt.fyi/webapp";
     StderrPipe := None |}.

(** The instance [newDevAppServer] builds in [construction_ok]. *)
Definition fresh : t (H := GoURL.impl) :=
  {| cmd := {| Path := "dev_appserver.py";
               Args := devAppServerArgs 8080 8081 "/wpt.fyi/webapp";
               Process := false |};
     startupTimeout := 90 * Second;
     host := "localhost";
     port := 8080;
     apiPort := 8081;
     baseURL := None;
     adminURL := None |}.

Definition moduleLine (url : string) : string := Regexp.hostLiteral ++ url.
Definition adminLine (url : string) : string := Regexp.adminLiteral ++ url.
Definition warmupLine : string :=
  "INFO module.py:861] default: GET /_ah/warmup HTTP/1.1 200".

(** [lines] arriving one millisecond apart, then [tail]. *)
Definition stream (lines : list string) (tail : stream_end) : startup :=
  {| start_error := None;
     stderr_lines := map (fun text => (1000000%N, text)) lines;
     stderr_end := tail |}.

Definition localhost8080 : GoURL.url :=
  {| GoURL.Scheme := "http"; GoURL.Host := "localhost:8080"; GoURL.Path := EmptyString |}.
Definition localhost9999 : GoURL.url :=
  {| GoURL.Scheme := "http"; GoURL.Host := "localhost:9999"; GoURL.Path := EmptyString |}.

Definition localhost8443 : GoURL.url :=
  {| GoURL.Scheme := "https"; GoURL.Host := "localhost:8443"; GoURL.Path := EmptyString |}.

(** [fresh] once started, with both endpoints known. *)
Definition ready : t (H := GoURL.impl) :=
  set_adminURL (set_baseURL (started fresh) localhost8080) localhost9999.

Definition seeding_ok : seeding := {| seed_Start := None; seed_Wait := None |}.

Definition local_flags : flags :=
  {| staging := false; remoteHost := "staging.wpt.fyi" |}.

(** The admin line, the module line, the warmup request, then closure. *)
Definition full_startup : startup :=
  stream [adminLine "http://localhost:9999";
          moduleLine "http://localhost:8080";
          warmupLine] (EOF 0).

(** The module line alone, then closure. *)
Definition primary_only : startup :=
  stream [moduleLine "http://localhost:8080"] (EOF 0).

(** The admin line and the module line, then closure, no warmup. *)
Definition closed_before_warmup : startup :=
  stream [adminLine "http://localhost:9999";
          moduleLine "http://localhost:8080"] (EOF 0).

(** The admin line alone, then closure. *)
Definition admin_only : startup :=
  stream [adminLine "http://localhost:9999"] (EOF 0).

(** The three lines without the words that open the two patterns. *)
Definition unprefixed_lines : startup :=
  stream ["admin server at: http://localhost:9999";
          "module running at: http://localhost:8080";
          "GET /_ah/warmup"] (EOF 0).

(** A child that prints nothing and keeps its stderr open. *)
Definition silent : startup :=
  {| start_error := None; stderr_lines := []; stderr_end := Stalled |}.

(** A command that cannot be started. *)
Definition spawn_fails : startup :=
  {| start_error := Some "exec: dev_appserver.py: executable file not found";
     stderr_lines := [];
     stderr_end := EOF 0 |}.

(** One line with both the warmup request and a module address. *)
Definition warmup_and_module : string :=
  warmupLine ++ " " ++ moduleLine "http://localhost:1".

(** The admin server refuses the connection. *)
Definition refused : shutdown :=
  {| http_Get := fun _ => Some "dial tcp 127.0.0.1:9999: connection refused";
     wait_result := None |}.

(** The child exits cleanly two seconds after the quit request. *)
Definition graceful : shutdown :=
  {| http_Get := fun _ => None; wait_result := Some (2000000000%N, None) |}.

(** The child answers the quit request and never exits. *)
Definition stuck : shutdown :=
  {| http_Get := fun _ => None; wait_result := None |}.

End Sample.

(** * Vocabulary of the statements *)

Module Stream.

(** The time for which the calls of [s.Scan()] returning [lines] block. *)
Definition duration (lines : list (N * string)) : Z :=
  fold_right (fun line total => (Z.of_N (fst line) + total)%Z) 0%Z lines.

Definition texts (lines : list (N * string)) : list string := map snd lines.

(** No line carries the ready marker. *)
Definition never_ready (lines : list (N * string)) : Prop :=
  forall text, In text (texts lines) -> Regexp.readyRE text = false.

(** A line with the ready marker is read before [deadline]. *)
Definition ready_before (deadline : Z) (lines : list (N * string)) : Prop :=
  exists pre delay text post,
    lines = (pre ++ (delay, text) :: post)%list
    /\ Regexp.readyRE text = true
    /\ (duration pre + Z.of_N delay < deadline)%Z.

(** The stream is read to its end and closes before [deadline]. *)
Definition closed_before (deadline : Z) (lines : list (N * string))
           (tail : stream_end) : Prop :=
  exists delay,
    tail = EOF delay /\ (duration lines + Z.of_N delay < deadline)%Z.

(** [u] is the parse of the token that pattern [re] finds in a line. *)
Definition captured `{NetURL} (re : string -> option string)
           (lines : list (N * string)) (u : URL) : Prop :=
  exists text token,
    In text (texts lines) /\ re text = Some token
    /\ token <> EmptyString /\ url_Parse token = inl u.

(** [err] reports a token that [url.Parse] rejected. *)
Definition parse_failure `{NetURL} (lines : list (N * string))
           (err : option error) : Prop :=
  exists text token cause,
    In text (texts lines)
    /\ (Regexp.hostRE text = Some token \/ Regexp.adminURLRE text = Some token)
    /\ url_Parse token = inr cause
    /\ err = Some (ReadStderrf (ParseURLf token cause)).

(** [prefix] and [path] joined by exactly one slash. *)
Definition joined (prefix path : string) : string :=
  match path with
  | String "/"%char rest => prefix ++ "/" ++ rest
  | _ => prefix ++ "/" ++ path
  end.

End Stream.

Module ScanSpec.
Section WithURL.

Context `{NetURL}.

Import devAppServerInstance.

(** The scanner writes the two URL fields and nothing else. *)
Definition same_settings (i i' : t) : Prop :=
  cmd i' = cmd i /\ startupTimeout i' = startupTimeout i
  /\ host i' = host i /\ port i' = port i /\ apiPort i' = apiPort i.

(** What a line that is not the ready line can do to the instance. *)
Definition line_effect (i : t) (text : string) (i' : t) : Prop :=
  same_settings i i'
  /\ (forall u, baseURL i' = Some u -> baseURL i = Some u
         \/ exists token, Regexp.hostRE text = Some token
                          /\ url_Parse token = inl u)
  /\ (forall u, adminURL i' = Some u -> adminURL i = Some u
         \/ exists token, Regexp.adminURLRE text = Some token
                          /\ url_Parse token = inl u).

(** The three ways out of one turn of the loop. *)
Inductive line_spec (i : t) (text : string) : line_result -> Prop :=
| line_break :
    Regexp.readyRE text = true -> line_spec i text Break
| line_next i' :
    Regexp.readyRE text = false ->
    line_effect i text i' ->
    (Regexp.hostRE text <> None -> baseURL i' <> None) ->
    (baseURL i <> None -> baseURL i' <> None) ->
    line_spec i text (Next i')
| line_fail i' token cause :
    Regexp.readyRE text = false ->
    line_effect i text i' ->
    (Regexp.hostRE text = Some token \/ Regexp.adminURLRE text = Some token) ->
    url_Parse token = inr cause ->
    line_spec i text (Fail i' (ParseURLf token cause)).

End WithURL.
End ScanSpec.

(** * The rest of the package *)

(** ** NewContext and the seeding command *)

Module RemoteAPI.
Section WithURL.

Context `{NetURL}.

Import devAppServerInstance.

(** [NewContext]: the address handed to [remote_api.NewRemoteContext],
    whose answer, a context and an error, is returned as it is.  The
    library call is the argument [NewRemoteContext]. *)
Definition NewContext {Context : Type}
           (NewRemoteContext : string -> Context * option error) (i : t)
  : Context * option error :=
  NewRemoteContext (host i ++ ":" ++ Fmt.d (apiPort i)).

(** The arguments [addStaticData] gives to [exec.Command] after the
    name [go]; the verb [%v] writes an [int] as [%d] does. *)
Definition addStaticDataArgs (i : t) : list string :=
  [ "run";
    "../util/populate_dev_data.go";
    "--local_host=localhost:" ++ Fmt.d (port i);
    "--local_remote_api_host=localhost:" ++ Fmt.d (apiPort i);
    "--remote_runs=false";
    "--static_runs=true" ].

End WithURL.
End RemoteAPI.

(** ** Calls through the interface [AppServer] *)

Module Handle.
Section WithURL.

Context `{NetURL}.

(** [s.GetWebappURL(path)] on an interface value: the method of the
    implementer it holds; through a nil instance pointer the read of
    [i.baseURL] panics. *)
Definition GetWebappURL (s : AppServer) (path : string) : outcome string :=
  match s with
  | Remote r => Returned (remoteAppServer.GetWebappURL r path)
  | DevAppServer (Some i) => Returned (devAppServerInstance.GetWebappURL i path)
  | DevAppServer None => Panicked NilDereference
  end.

(** [s.Close()] on an interface value; through a nil instance pointer
    the goroutine is launched and the read of [i.adminURL] panics. *)
Definition Close (env : shutdown) (s : AppServer)
  : list event * outcome (option error) :=
  match s with
  | Remote r => ([], Returned (remoteAppServer.Close r))
  | DevAppServer (Some i) => devAppServerInstance.Close env i
  | DevAppServer None => ([CmdWait], Panicked NilDereference)
  end.

End WithURL.
End Handle.

(** ** More vocabulary *)

Module Capture.

(** The texts the loop looks at for endpoints when it runs to its end:
    those before the first line with the ready marker. *)
Fixpoint before_ready (lines : list (N * string)) : list string :=
  match lines with
  | [] => []
  | (_, text) :: rest =>
      if Regexp.readyRE text then [] else text :: before_ready rest
  end.

(** The token pattern [re] finds in the last text that has one. *)
Fixpoint last_token (re : string -> option string) (texts : list string)
  : option string :=
  match texts with
  | [] => None
  | text :: rest =>
      match last_token re rest with
      | Some token => Some token
      | None => re text
      end
  end.

(** After the scan a URL field holds the parse of the last token, or
    what it held before when no text had one. *)
Definition holds_last `{NetURL} (re : string -> option string)
           (lines : list (N * string)) (before after : option URL) : Prop :=
  match last_token re (before_ready lines) with
  | Some token => exists u, url_Parse token = inl u /\ after = Some u
  | None => after = before
  end.

(** A line without ready marker that carries an endpoint token
    [url.Parse] rejects. *)
Definition unparsable `{NetURL} (text : string) : Prop :=
  Regexp.readyRE text = false
  /\ exists token cause,
      (Regexp.hostRE text = Some token \/ Regexp.adminURLRE text = Some token)
      /\ url_Parse token = inr cause.


(** [s] is [lit] followed by a byte that is not a space. *)
Definition opens_match (lit s : string) : Prop :=
  exists c rest, s = lit ++ String c rest /\ Regexp.is_space c = false.

End Capture.

(** ** More streams *)

Module Sample2.

Import devAppServerInstance.

(** The module line, the warmup request, and only then the admin line. *)
Definition admin_after_warmup : startup :=
  Sample.stream [Sample.moduleLine "http://localhost:8080";
                 Sample.warmupLine;
                 Sample.adminLine "http://localhost:9999"] (EOF 0).

(** The warmup request before any address. *)
Definition warmup_first : startup :=
  Sample.stream [Sample.warmupLine;
                 Sample.moduleLine "http://localhost:8080";
                 Sample.adminLine "http://localhost:9999"] (EOF 0).

(** Two module lines: the server announces a second address. *)
Definition module_twice : startup :=
  Sample.stream [Sample.moduleLine "http://localhost:8080";
                 Sample.adminLine "http://localhost:9999";
                 Sample.moduleLine "https://localhost:8443";
                 Sample.warmupLine] (EOF 0).

(** A module line whose address has a port that is no number. *)
Definition bad_port_line : startup :=
  Sample.stream [Sample.moduleLine "http://localhost:80a"] (EOF 0).

(** The pipe breaks after the module line. *)
Definition broken_pipe : startup :=
  Sample.stream [Sample.moduleLine "http://localhost:8080"]
                (ReadError 0 "read |0: file already closed").

(** The child exits with status 1, one second after the quit request. *)
Definition exit_status_1 : shutdown :=
  {| http_Get := fun _ => None;
     wait_result := Some (1000000000%N, Some "exit status 1") |}.

(** [Sample.fresh] started, with the primary endpoint only. *)
Definition primary_known : t (H := GoURL.impl) :=
  set_baseURL (started Sample.fresh) Sample.localhost8080.

Definition staging_flags : flags :=
  {| staging := true; remoteHost := "staging.wpt.fyi" |}.

End Sample2.

(** * Facts about the patterns *)

Module RegexpFacts.

Import Regexp.

Lemma append_assoc (a b c : string) : (a ++ b) ++ c = a ++ (b ++ c).
Proof. induction a as [|x a IH]; simpl; [reflexivity|now rewrite IH]. Qed.

Lemma strip_prefix_spec p s r : Bytes.strip_prefix p s = Some r -> s = p ++ r.
Proof.
  revert s; induction p as [|a p IH]; intros s; simpl.
  - now intros [= ->].
  - destruct s as [|b s]; [discriminate|].
    destruct (Ascii.eqb_spec a b) as [->|]; [|discriminate].
    intros Hrest. now rewrite (IH _ Hrest).
Qed.

Lemma nonspace_run_prefix s : exists rest, s = nonspace_run s ++ rest.
Proof.
  induction s as [|c s [rest IH]]; simpl; [now exists EmptyString|].
  destruct (is_space c).
  - now exists (String c s).
  - exists rest. simpl. now rewrite <- IH.
Qed.

(** The submatch stands in the line, right after the literal. *)
Lemma find_submatch_sound lit s token :
  find_submatch lit s = Some token ->
  exists before rest, s = before ++ lit ++ token ++ rest.
Proof.
  assert (Hhere : forall s', match_here lit s' = Some token ->
            exists rest, s' = lit ++ token ++ rest).
  { intros s'. unfold match_here.
    destruct (Bytes.strip_prefix lit s') as [after|] eqn:Hstrip; [|discriminate].
    destruct (nonspace_run_prefix after) as [rest Hrun].
    destruct (nonspace_run after) eqn:Htok; [discriminate|].
    intros [= <-]. exists rest.
    rewrite (strip_prefix_spec _ _ _ Hstrip). now rewrite Hrun at 1. }
  induction s as [|c s IH]; simpl.
  - destruct (match_here lit EmptyString) eqn:E; [|discriminate].
    intros [= <-]. destruct (Hhere _ E) as [rest Hrest].
    now exists EmptyString, rest.
  - destruct (match_here lit (String c s)) eqn:E.
    + intros [= <-]. destruct (Hhere _ E) as [rest Hrest].
      now exists EmptyString, rest.
    + intros Hfind. destruct (IH Hfind) as (before & rest & ->).
      now exists (String c before), rest.
Qed.

Lemma match_here_nonempty lit s token :
  match_here lit s = Some token -> token <> EmptyString.
Proof.
  unfold match_here.
  destruct (Bytes.strip_prefix lit s) as [rest|]; [|discriminate].
  destruct (nonspace_run rest); [discriminate|].
  intros [= <-]. discriminate.
Qed.

Lemma find_submatch_nonempty lit s token :
  find_submatch lit s = Some token -> token <> EmptyString.
Proof.
  induction s as [|c s IH]; simpl.
  - destruct (match_here lit EmptyString) eqn:E; [|discriminate].
    intros [= <-]. exact (match_here_nonempty _ _ _ E).
  - destruct (match_here lit (String c s)) eqn:E.
    + intros [= <-]. exact (match_here_nonempty _ _ _ E).
    + exact IH.
Qed.

Lemma nonspace_run_no_space s :
  Bytes.forallb (fun c => negb (is_space c)) (nonspace_run s) = true.
Proof.
  induction s as [|c s IH]; simpl; [reflexivity|].
  destruct (is_space c) eqn:E; simpl; [reflexivity|].
  rewrite E. exact IH.
Qed.

(** A submatch is a non-empty run of non-space bytes. *)
Lemma find_submatch_no_space lit s token :
  find_submatch lit s = Some token ->
  Bytes.forallb (fun c => negb (is_space c)) token = true.
Proof.
  assert (Hhere : forall s', match_here lit s' = Some token ->
            Bytes.forallb (fun c => negb (is_space c)) token = true).
  { intros s'. unfold match_here.
    destruct (Bytes.strip_prefix lit s') as [rest|]; [|discriminate].
    pose proof (nonspace_run_no_space rest) as Hrun.
    destruct (nonspace_run rest); [discriminate|].
    intros [= <-]. exact Hrun. }
  induction s as [|c s IH]; simpl.
  - destruct (match_here lit EmptyString) eqn:E; [|discriminate].
    intros [= <-]. exact (Hhere _ E).
  - destruct (match_here lit (String c s)) eqn:E.
    + intros [= <-]. exact (Hhere _ E).
    + exact IH.
Qed.

Example hostRE_picks_token :
  hostRE ("INFO dispatcher.py] " ++ hostLiteral ++ "http://localhost:8080 (pid 7)")
  = Some "http://localhost:8080".
Proof. reflexivity. Qed.

Example hostRE_skips_empty_token :
  hostRE (hostLiteral ++ " " ++ hostLiteral ++ "b c") = Some "b".
Proof. reflexivity. Qed.

Example adminURLRE_not_host :
  adminURLRE (hostLiteral ++ "http://localhost:8080") = None.
Proof. reflexivity. Qed.

Example fmt_d_port : Fmt.d 8080 = "8080" /\ Fmt.d 0 = "0" /\ Fmt.d (-17) = "-17".
Proof. repeat split. Qed.

Example newDevAppServer_sample :
  newDevAppServer Sample.construction_ok = Returned (Some Sample.fresh, None).
Proof. reflexivity. Qed.

Example parse_localhost :
  GoURL.Parse "http://localhost:8080" = inl Sample.localhost8080
  /\ GoURL.String_ Sample.localhost8080 = "http://localhost:8080".
Proof. split; reflexivity. Qed.

End RegexpFacts.

(** * Facts about the scanner *)

Module ScannerFacts.
Section WithURL.

Context `{NetURL}.

Import devAppServerInstance Stream ScanSpec.

Lemma same_settings_refl i : same_settings i i.
Proof. repeat split. Qed.

Lemma same_settings_trans i j k :
  same_settings i j -> same_settings j k -> same_settings i k.
Proof.
  unfold same_settings. intros (a & b & c & d & e) (a' & b' & c' & d' & e').
  repeat split; congruence.
Qed.

Lemma scan_line_spec i text : line_spec i text (scan_line i text).
Proof.
  unfold scan_line, scan_admin.
  destruct (Regexp.readyRE text) eqn:Hready; [now constructor|].
  destruct (Regexp.hostRE text) as [tok|] eqn:Hhost;
    [destruct (url_Parse tok) as [u|cause] eqn:Hparse|];
    try (destruct (Regexp.adminURLRE text) as [tok'|] eqn:Hadmin;
         [destruct (url_Parse tok') as [u'|cause'] eqn:Hparse'|]).
  all: econstructor; try eassumption; try (now left); try (now right);
    unfold line_effect, same_settings; simpl;
    try congruence; try discriminate; repeat split; trivial.
  all: try (intros v [= <-]; right; eauto; fail).
  all: try (intros v Hv; now left).
Qed.

Lemma scan_line_ready i text :
  Regexp.readyRE text = true -> scan_line i text = Break.
Proof. intros Hready. unfold scan_line. now rewrite Hready. Qed.

Lemma captured_cons re delay text rest u :
  captured re rest u -> captured re ((delay, text) :: rest) u.
Proof.
  intros (text' & token & Hin & Hre & Hne & Hparse).
  exists text', token. repeat split; try assumption. now right.
Qed.

Lemma captured_here re delay text rest token u :
  re = Regexp.hostRE \/ re = Regexp.adminURLRE ->
  re text = Some token -> url_Parse token = inl u ->
  captured re ((delay, text) :: rest) u.
Proof.
  intros Hre Hmatch Hparse. exists text, token.
  repeat split; try assumption; [now left|].
  destruct Hre as [-> | ->];
    exact (RegexpFacts.find_submatch_nonempty _ _ _ Hmatch).
Qed.

Lemma parse_failure_cons delay text rest err :
  parse_failure rest err -> parse_failure ((delay, text) :: rest) err.
Proof.
  intros (text' & token & cause & Hin & Hre & Hparse & Herr).
  exists text', token, cause. repeat split; try assumption. now right.
Qed.

(** What the [select] receives, and what the instance then holds. *)
Lemma scanner_spec deadline lines tail :
  forall elapsed i i' r,
    scanner deadline elapsed lines tail i = (i', r) ->
    same_settings i i'
    /\ (forall u, baseURL i' = Some u ->
          baseURL i = Some u \/ captured Regexp.hostRE lines u)
    /\ (forall u, adminURL i' = Some u ->
          adminURL i = Some u \/ captured Regexp.adminURLRE lines u)
    /\ match r with
       | Sent None =>
           ready_before (deadline - elapsed) lines
           \/ closed_before (deadline - elapsed) lines tail
       | Sent (Some e) =>
           (exists delay text, tail = ReadError delay text /\ e = External text)
           \/ parse_failure lines (Some (ReadStderrf e))
       | Expired => True
       end.
Proof.
  induction lines as [|[delay text] rest IH]; intros elapsed i i' r; simpl.
  - destruct tail as [delay|delay text|].
    + destruct (Z.ltb_spec (elapsed + Z.of_N delay) deadline);
        intros [= <- <-]; repeat split; auto.
      right. exists delay. split; [reflexivity|]. simpl. lia.
    + destruct (Z.ltb_spec (elapsed + Z.of_N delay) deadline);
        intros [= <- <-]; repeat split; auto.
      left. eauto.
    + intros [= <- <-]; repeat split; auto.
  - destruct (Z.ltb_spec (elapsed + Z.of_N delay) deadline) as [Hlt|Hge].
    2:{ intros [= <- <-]; repeat split; auto. }
    destruct (scan_line_spec i text)
      as [Hready | j Hready (Hsame & Hbase & Hadmin) _ _
          | j token cause Hready (Hsame & Hbase & Hadmin) Hre Hparse].
    + intros [= <- <-]. repeat split; auto.
      left. exists [], delay, text, rest. simpl. repeat split; auto. lia.
    + intros Hrun. destruct (IH _ _ _ _ Hrun) as (Hs & Hb & Ha & Hr).
      split; [eapply same_settings_trans; eassumption|].
      split; [|split].
      * intros u Hu. destruct (Hb u Hu) as [Hj|Hcap].
        -- destruct (Hbase u Hj) as [Hi|(token & Hm & Hp)]; [now left|].
           right. eapply captured_here; eauto.
        -- right. now apply captured_cons.
      * intros u Hu. destruct (Ha u Hu) as [Hj|Hcap].
        -- destruct (Hadmin u Hj) as [Hi|(token & Hm & Hp)]; [now left|].
           right. eapply captured_here; eauto.
        -- right. now apply captured_cons.
      * destruct r as [[e|]|]; [| |exact I].
        -- destruct Hr as [Hr|Hr]; [now left|right].
           now apply parse_failure_cons.
        -- destruct Hr as [(pre & d & tx & post & -> & Hrd & Ht)
                          |(d & -> & Ht)].
           ++ left. exists ((delay, text) :: pre), d, tx, post.
              simpl. repeat split; auto. lia.
           ++ right. exists d. split; [reflexivity|]. simpl. lia.
    + intros [= <- <-]. split; [assumption|].
      split; [|split].
      * intros u Hu. destruct (Hbase u Hu) as [Hi|(tok & Hm & Hp)]; [now left|].
        right. eapply captured_here; eauto.
      * intros u Hu. destruct (Hadmin u Hu) as [Hi|(tok & Hm & Hp)]; [now left|].
        right. eapply captured_here; eauto.
      * right. exists text, token, cause. repeat split; auto. now left.
Qed.

(** A stream without ready line that closes in time is read to its
    end, unless a token fails to parse on the way. *)
Lemma scanner_closed deadline lines tail :
  forall elapsed i i' r,
    never_ready lines ->
    closed_before (deadline - elapsed) lines tail ->
    scanner deadline elapsed lines tail i = (i', r) ->
    (r = Sent None
     /\ (baseURL i' <> None <->
         baseURL i <> None
         \/ exists text, In text (texts lines) /\ Regexp.hostRE text <> None))
    \/ (exists e, r = Sent (Some e)
                  /\ parse_failure lines (Some (ReadStderrf e))).
Proof.
  induction lines as [|[delay text] rest IH];
    intros elapsed i i' r Hnever (d & -> & Hd); simpl in *.
  - destruct (Z.ltb_spec (elapsed + Z.of_N d) deadline); [|lia].
    intros [= <- <-]. left. split; [reflexivity|].
    split; [now left|]. intros [Hi|(text & [] & _)]. exact Hi.
  - pose proof (N2Z.is_nonneg d) as Hd0.
    assert (Hrest : (0 <= duration rest)%Z).
    { clear. induction rest as [|[a b] rest IH]; simpl; lia. }
    destruct (Z.ltb_spec (elapsed + Z.of_N delay) deadline); [|lia].
    destruct (scan_line_spec i text)
      as [Hready | j Hready (Hsame & Hbase & Hadmin) Hhost Hkeep
          | j token cause Hready Heff Hre Hparse].
    + rewrite (Hnever text) in Hready; [discriminate|now left].
    + intros Hrun.
      destruct (IH (elapsed + Z.of_N delay)%Z j i' r) as [(-> & Hiff)|(e & -> & Hfail)];
        try assumption.
      * intros tx Htx. apply Hnever. now right.
      * exists d. split; [reflexivity|]. lia.
      * left. split; [reflexivity|]. rewrite Hiff. split.
        -- intros [Hj|(tx & Hin & Hm)].
           ++ destruct (baseURL j) as [u|] eqn:Ej; [|congruence].
              destruct (Hbase u eq_refl) as [Hi|(tok & Hm & _)].
              ** left. congruence.
              ** right. exists text. split; [now left|congruence].
           ++ right. exists tx. split; [now right|assumption].
        -- intros [Hi|(tx & [<-|Hin] & Hm)].
           ++ left. now apply Hkeep.
           ++ left. now apply Hhost.
           ++ right. eauto.
      * right. exists e. split; [reflexivity|]. now apply parse_failure_cons.
    + intros [= <- <-]. right. eexists. split; [reflexivity|].
      exists text, token, cause. repeat split; auto. now left.
Qed.

(** Nothing after a ready line is looked at. *)
Lemma scanner_stops_at_ready deadline pre delay text post post' tail tail' :
  Regexp.readyRE text = true ->
  forall elapsed i,
    scanner deadline elapsed (pre ++ (delay, text) :: post) tail i
    = scanner deadline elapsed (pre ++ (delay, text) :: post') tail' i.
Proof.
  intros Hready. induction pre as [|[d tx] pre IH]; intros elapsed i; simpl.
  - rewrite (scan_line_ready i text Hready). reflexivity.
  - destruct (elapsed + Z.of_N d <? deadline)%Z; [|reflexivity].
    destruct (scan_line i tx); try reflexivity. apply IH.
Qed.

Lemma scanner_next deadline elapsed delay text rest tail i j :
  (elapsed + Z.of_N delay < deadline)%Z ->
  scan_line i text = Next j ->
  scanner deadline elapsed ((delay, text) :: rest) tail i
  = scanner deadline (elapsed + Z.of_N delay) rest tail j.
Proof.
  intros Hlt Hline. simpl. rewrite Hline.
  destruct (Z.ltb_spec (elapsed + Z.of_N delay) deadline); [reflexivity|lia].
Qed.

Lemma scanner_break deadline elapsed delay text rest tail i :
  (elapsed + Z.of_N delay < deadline)%Z ->
  Regexp.readyRE text = true ->
  scanner deadline elapsed ((delay, text) :: rest) tail i = (i, Sent None).
Proof.
  intros Hlt Hready. simpl. rewrite (scan_line_ready i text Hready).
  destruct (Z.ltb_spec (elapsed + Z.of_N delay) deadline); [reflexivity|lia].
Qed.

(** [AwaitReady] changes [cmd.Process] and the two URL fields only, and
    a base URL it leaves in the instance comes from the stream. *)
Lemma AwaitReady_effect env i i' tr err :
  AwaitReady env i = (i', tr, err) ->
  host i' = host i /\ port i' = port i /\ apiPort i' = apiPort i
  /\ (forall u, baseURL i' = Some u ->
        baseURL i = Some u \/ captured Regexp.hostRE (stderr_lines env) u).
Proof.
  unfold AwaitReady. destruct (start_error env).
  - intros [= <- <- <-]. repeat split. now left.
  - destruct (scanner _ _ _ _ _) as [j r] eqn:Hrun.
    apply scanner_spec in Hrun.
    destruct Hrun as ((_ & _ & Hh & Hp & Ha) & Hb & _).
    assert (Hj : host j = host i /\ port j = port i /\ apiPort j = apiPort i
                 /\ (forall u, baseURL j = Some u ->
                       baseURL i = Some u
                       \/ captured Regexp.hostRE (stderr_lines env) u)).
    { repeat split; assumption. }
    clear Hh Hp Ha Hb.
    destruct r as [[e|]|]; [| |]; try (intros [= <- <- <-]; exact Hj).
    intros Hret.
    assert (Hi' : i' = j) by (destruct (baseURL j); congruence).
    now subst i'.
Qed.

End WithURL.
End ScannerFacts.

(** * AwaitReady *)

Section AwaitReadyFacts.

Context `{NetURL}.

Import devAppServerInstance Stream ScanSpec ScannerFacts.

(** C1, as amended.  On an instance that holds no URL yet, [AwaitReady]
    returns nil only if the command started, the primary-endpoint URL
    has been captured from a line of the stream as a non-empty token
    that [url.Parse] accepted, any admin URL it holds was captured
    likewise, and the scan ended before the deadline: by a ready line
    or by the closure of the stream. *)
Theorem AwaitReady_nil_only_with_primary env i i' tr :
  baseURL i = None -> adminURL i = None ->
  AwaitReady env i = (i', tr, None) ->
  start_error env = None
  /\ (exists u, baseURL i' = Some u
                /\ captured Regexp.hostRE (stderr_lines env) u)
  /\ (forall a, adminURL i' = Some a ->
                captured Regexp.adminURLRE (stderr_lines env) a)
  /\ (ready_before (startupTimeout i) (stderr_lines env)
      \/ closed_before (startupTimeout i) (stderr_lines env) (stderr_end env)).
Proof.
  intros Hbase Hadmin. unfold AwaitReady.
  destruct (start_error env) as [e|]; [discriminate|].
  destruct (scanner _ _ _ _ _) as [j r] eqn:Hrun.
  apply scanner_spec in Hrun. destruct Hrun as (_ & Hb & Ha & Hr).
  destruct r as [[e|]|]; try discriminate.
  destruct (baseURL j) as [u|] eqn:Hj; [|discriminate].
  intros [= <- <-]. split; [reflexivity|]. rewrite Z.sub_0_r in Hr.
  split; [|split; [|exact Hr]].
  - exists u. split; [exact Hj|].
    destruct (Hb u eq_refl) as [Hi|Hcap]; [|exact Hcap].
    simpl in Hi. congruence.
  - intros a Hja. destruct (Ha a Hja) as [Hi|Hcap]; [|exact Hcap].
    simpl in Hi. congruence.
Qed.

(** C2, as amended.  When no line carries the ready marker and the
    stream closes before the deadline, [AwaitReady] neither times out
    nor kills the child.  If no line matched the primary-endpoint
    pattern it fails, whatever admin captures were made: with the
    discovery failure, or with the parse failure of a token.  If some
    line matched it, the call returns nil unless a token failed to
    parse. *)
Theorem AwaitReady_closed_without_ready env i i' tr err :
  baseURL i = None ->
  start_error env = None ->
  never_ready (stderr_lines env) ->
  closed_before (startupTimeout i) (stderr_lines env) (stderr_end env) ->
  AwaitReady env i = (i', tr, err) ->
  err <> Some errTimeoutStarting
  /\ ~ In ProcessKill tr
  /\ ((forall text, In text (texts (stderr_lines env)) ->
                    Regexp.hostRE text = None) ->
      err = Some errNoWebserverURL \/ parse_failure (stderr_lines env) err)
  /\ ((exists text, In text (texts (stderr_lines env))
                    /\ Regexp.hostRE text <> None) ->
      err = None \/ parse_failure (stderr_lines env) err).
Proof.
  intros Hbase Hstart Hnever Hclosed. unfold AwaitReady. rewrite Hstart.
  destruct (scanner _ _ _ _ _) as [j r] eqn:Hrun.
  apply scanner_closed in Hrun; [|assumption|now rewrite Z.sub_0_r].
  destruct Hrun as [(-> & Hiff)|(e & -> & Hfail)].
  - simpl in Hiff. rewrite Hbase in Hiff.
    destruct (baseURL j) as [u|] eqn:Hj; intros [= <- <- <-].
    + split; [discriminate|]. split; [simpl; intuition discriminate|].
      split; [|now left].
      intros Hnone. exfalso.
      destruct (proj1 Hiff) as [Hi|(text & Hin & Hm)];
        [discriminate|congruence|].
      now apply Hm, Hnone.
    + split; [discriminate|]. split; [simpl; intuition discriminate|].
      split; [now left|].
      intros Hsome. exfalso. apply (proj2 Hiff); [now right|reflexivity].
  - intros [= <- <- <-].
    split; [discriminate|]. split; [simpl; intuition discriminate|].
    split; intros _; now right.
Qed.

(** C3, as amended.  The stream whose lines are
    [Starting admin server at: http://localhost:9999], then
    [Starting module "default" running at: http://localhost:8080],
    then a line with [GET /_ah/warmup], all read before the deadline:
    [AwaitReady] returns nil, and the instance holds the parse of
    [http://localhost:8080] as primary URL and the parse of
    [http://localhost:9999] as admin URL, whatever follows. *)
Theorem AwaitReady_admin_module_ready i primary admin d1 d2 d3 ready rest tail :
  url_Parse "http://localhost:8080" = inl primary ->
  url_Parse "http://localhost:9999" = inl admin ->
  Regexp.readyRE ready = true ->
  (Z.of_N d1 + Z.of_N d2 + Z.of_N d3 < startupTimeout i)%Z ->
  let env := {| start_error := None;
                stderr_lines :=
                  (d1, Regexp.adminLiteral ++ "http://localhost:9999")
                    :: (d2, Regexp.hostLiteral ++ "http://localhost:8080")
                    :: (d3, ready) :: rest;
                stderr_end := tail |} in
  AwaitReady env i
  = (set_baseURL (set_adminURL (started i) admin) primary,
     [CmdStart; TimeAfter (startupTimeout i)], None).
Proof.
  intros Hp Ha Hready Htime env. unfold AwaitReady, env.
  cbn [start_error stderr_lines stderr_end].
  pose proof (N2Z.is_nonneg d1). pose proof (N2Z.is_nonneg d2).
  pose proof (N2Z.is_nonneg d3).
  rewrite (scanner_next _ _ _ _ _ _ _ (set_adminURL (started i) admin)); [|lia|].
  2:{ unfold scan_line, scan_admin.
      change (Regexp.readyRE (Regexp.adminLiteral ++ "http://localhost:9999")) with false.
      change (Regexp.hostRE (Regexp.adminLiteral ++ "http://localhost:9999"))
        with (@None string).
      change (Regexp.adminURLRE (Regexp.adminLiteral ++ "http://localhost:9999"))
        with (Some "http://localhost:9999").
      cbv beta iota. now rewrite Ha. }
  rewrite (scanner_next _ _ _ _ _ _ _
             (set_baseURL (set_adminURL (started i) admin) primary)); [|lia|].
  2:{ unfold scan_line, scan_admin.
      change (Regexp.readyRE (Regexp.hostLiteral ++ "http://localhost:8080")) with false.
      change (Regexp.hostRE (Regexp.hostLiteral ++ "http://localhost:8080"))
        with (Some "http://localhost:8080").
      change (Regexp.adminURLRE (Regexp.hostLiteral ++ "http://localhost:8080"))
        with (@None string).
      cbv beta iota. now rewrite Hp. }
  rewrite scanner_break; [reflexivity|lia|assumption].
Qed.

(** C4.  When the deadline elapses before the scanner has sent its
    result, [AwaitReady] kills the child as its last call and returns
    the timeout error, which is neither the discovery failure nor an
    error of the scan. *)
Theorem AwaitReady_timeout_kills env i i' tr err :
  start_error env = None ->
  snd (scanner (startupTimeout i) 0 (stderr_lines env) (stderr_end env)
               (started i)) = Expired ->
  AwaitReady env i = (i', tr, err) ->
  tr = [CmdStart; TimeAfter (startupTimeout i); ProcessKill]
  /\ err = Some errTimeoutStarting
  /\ errTimeoutStarting <> errNoWebserverURL
  /\ (forall cause, errTimeoutStarting <> ReadStderrf cause).
Proof.
  intros Hstart Hexp. unfold AwaitReady. rewrite Hstart.
  destruct (scanner _ _ _ _ _) as [j r] eqn:Hrun. simpl in Hexp. subst r.
  apply scanner_spec in Hrun. destruct Hrun as ((Hcmd & _) & _).
  rewrite Hcmd. simpl. intros [= <- <- <-].
  repeat split; discriminate.
Qed.

(** C9.  A line with the ready marker ends the loop before either
    endpoint pattern is tried, so the instance is left as it was even
    if the line carries an endpoint marker too; and what follows the
    line in the stream changes nothing of what [AwaitReady] returns. *)
Theorem ready_line_stops_scan text :
  Regexp.readyRE text = true ->
  (forall i, scan_line i text = Break)
  /\ (forall i start pre delay post post' tail tail',
        AwaitReady {| start_error := start;
                      stderr_lines := pre ++ (delay, text) :: post;
                      stderr_end := tail |} i
        = AwaitReady {| start_error := start;
                        stderr_lines := pre ++ (delay, text) :: post';
                        stderr_end := tail' |} i).
Proof.
  intros Hready. split; [intros i; now apply scan_line_ready|].
  intros i start pre delay post post' tail tail'.
  unfold AwaitReady. simpl.
  now rewrite (scanner_stops_at_ready _ pre delay text post post' tail tail' Hready).
Qed.

End AwaitReadyFacts.

(** * Close *)

Section CloseFacts.

Context `{NetURL}.

Import devAppServerInstance.

(** C5.  When [http.Get] on the quit handler of the admin URL fails,
    [Close] kills the child at once, without starting the grace timer
    and without receiving from the waiting goroutine, and returns the
    error that wraps the failure of the request. *)
Theorem Close_quit_undelivered env i admin cause :
  adminURL i = Some admin ->
  Process (cmd i) = true ->
  http_Get env (url_String admin ++ "/quit") = Some cause ->
  Close env i
  = ([CmdWait; HTTPGet (url_String admin ++ "/quit"); ProcessKill],
     Returned (Some (QuitHandlerf cause)))
  /\ ~ In (TimeAfter gracePeriod) (fst (Close env i)).
Proof.
  intros Hadmin Hproc Hget. unfold Close, kill_then.
  rewrite Hadmin, Hget, Hproc. split; [reflexivity|].
  simpl. intuition discriminate.
Qed.

(** C6.  When the request is delivered, [Close] waits for the child
    for a grace period of fifteen seconds, whatever the startup
    timeout of the instance.  If [cmd.Wait] returns within the period,
    [Close] returns what it returned, nil for a clean exit, and kills
    nothing; if the child has not exited by then, [Close] kills it as
    its last call and returns the timeout error. *)
Theorem Close_quit_delivered env i admin :
  adminURL i = Some admin ->
  Process (cmd i) = true ->
  http_Get env (url_String admin ++ "/quit") = None ->
  let waited := [CmdWait; HTTPGet (url_String admin ++ "/quit");
                 BodyClose; TimeAfter (15 * Second)] in
  (forall delay exit,
      wait_result env = Some (delay, exit) ->
      (Z.of_N delay < 15 * Second)%Z ->
      Close env i = (waited, Returned (option_map External exit)))
  /\ (forall delay,
        wait_result env = Some (delay, None) ->
        (Z.of_N delay < 15 * Second)%Z ->
        Close env i = (waited, Returned None))
  /\ (wait_result env = None
       \/ (exists delay exit, wait_result env = Some (delay, exit)
                              /\ (15 * Second <= Z.of_N delay)%Z) ->
       Close env i
       = ((waited ++ [ProcessKill])%list, Returned (Some errTimeoutKilling))).
Proof.
  intros Hadmin Hproc Hget waited. unfold Close, kill_then, gracePeriod.
  rewrite Hadmin, Hget, Hproc. split; [|split].
  - intros delay exit -> Hlt.
    destruct (Z.ltb_spec (Z.of_N delay) (15 * Second)); [reflexivity|lia].
  - intros delay -> Hlt.
    destruct (Z.ltb_spec (Z.of_N delay) (15 * Second)); [reflexivity|lia].
  - intros [->|(delay & exit & -> & Hge)]; [reflexivity|].
    destruct (Z.ltb_spec (Z.of_N delay) (15 * Second)); [lia|reflexivity].
Qed.

End CloseFacts.

(** * GetWebappURL *)

Section GetWebappURLFacts.

Context `{NetURL}.

Import devAppServerInstance Stream ScannerFacts.

(** C7, as amended.  [GetWebappURL] appends [path] as it is: to
    [https://host] for the remote server, and to [http://host:port]
    for the local one as long as it has discovered no base URL.  When
    [path] starts with a slash the result is the prefix and the path
    joined by that one slash; no slash is added or removed. *)
Theorem GetWebappURL_appends_path (r : remoteAppServer.t) (i : t) path :
  baseURL i = None ->
  remoteAppServer.GetWebappURL r path
  = "https://" ++ remoteAppServer.host r ++ path
  /\ GetWebappURL i path = "http://" ++ host i ++ ":" ++ Fmt.d (port i) ++ path
  /\ (forall rest, path = String "/" rest ->
        remoteAppServer.GetWebappURL r path
        = joined ("https://" ++ remoteAppServer.host r) path
        /\ GetWebappURL i path
           = joined ("http://" ++ host i ++ ":" ++ Fmt.d (port i)) path).
Proof.
  intros Hbase. unfold remoteAppServer.GetWebappURL, GetWebappURL.
  rewrite Hbase. split; [reflexivity|]. split; [reflexivity|].
  intros rest ->. unfold joined.
  split; rewrite !RegexpFacts.append_assoc; reflexivity.
Qed.

(** C10.  [GetWebappURL] of the local server returns a string at every
    stage.  On the instance [newDevAppServer] has built it returns
    [http://localhost:port] followed by [path], with the first port
    picked; after [AwaitReady], whatever that returned, it returns the
    string form of the base URL captured from the stream followed by
    [path] if there is one, and the same [http://localhost:port] form
    if there is none. *)
Theorem GetWebappURL_local_total c s env s' tr err path :
  newDevAppServer c = Returned (Some s, None) ->
  AwaitReady env s = (s', tr, err) ->
  (forall i : t,
      GetWebappURL i path
      = match baseURL i with
        | Some u => url_String u ++ path
        | None => "http://" ++ host i ++ ":" ++ Fmt.d (port i) ++ path
        end)
  /\ GetWebappURL s path
     = "http://localhost:" ++ Fmt.d (fst (pickUnusedPort c)) ++ path
  /\ match baseURL s' with
     | Some u =>
         captured Regexp.hostRE (stderr_lines env) u
         /\ GetWebappURL s' path = url_String u ++ path
     | None =>
         GetWebappURL s' path
         = "http://localhost:" ++ Fmt.d (fst (pickUnusedPort c)) ++ path
     end.
Proof.
  intros Hnew Hready. split; [reflexivity|].
  unfold newDevAppServer in Hnew.
  destruct (filepath_Abs c) as [abs|e]; [|discriminate].
  destruct (StderrPipe c); [discriminate|].
  injection Hnew as <-. split; [reflexivity|].
  destruct (AwaitReady_effect _ _ _ _ _ Hready) as (Hh & Hp & _ & Hb).
  unfold GetWebappURL. destruct (baseURL s') as [u|].
  - split; [|reflexivity].
    destruct (Hb u eq_refl) as [Hi|Hcap]; [discriminate|exact Hcap].
  - rewrite Hh, Hp. reflexivity.
Qed.

End GetWebappURLFacts.

(** * NewWebserver *)

Section NewWebserverFacts.

Context `{NetURL}.

Import devAppServerInstance.

(** C8, as amended.  For the local server, [NewWebserver] returns an
    error value only for the failure of [StderrPipe] during
    construction.  An error of [AwaitReady], be it the spawn failure,
    the discovery failure, a parse or read failure or the startup
    timeout, and an error of the data seeding make it panic with that
    error; a failure of [filepath.Abs] makes it panic with the text of
    the error.  It returns an instance without error only when all of
    these succeeded. *)
Theorem NewWebserver_local_failures fl c s d :
  staging fl = false ->
  match NewWebserver fl c s d with
  | Returned (srv, Some err) =>
      srv = DevAppServer None
      /\ exists text, StderrPipe c = Some text /\ err = External text
  | Returned (srv, None) =>
      exists app app' tr,
        newDevAppServer c = Returned (Some app, None)
        /\ AwaitReady s app = (app', tr, None)
        /\ addStaticData d app' = None
        /\ srv = DevAppServer (Some app')
  | Panicked (PanicError err) =>
      exists app app' tr,
        newDevAppServer c = Returned (Some app, None)
        /\ (AwaitReady s app = (app', tr, Some err)
            \/ (AwaitReady s app = (app', tr, None)
                /\ addStaticData d app' = Some err))
  | Panicked (PanicText text) => filepath_Abs c = inr text
  | Panicked NilDereference => False
  end.
Proof.
  intros Hlocal. unfold NewWebserver. rewrite Hlocal.
  unfold newDevAppServer.
  destruct (filepath_Abs c) as [abs|text]; [|reflexivity].
  destruct (StderrPipe c) as [text|]; [split; eauto|].
  match goal with |- context [AwaitReady s ?a] => set (app := a) end.
  destruct (AwaitReady s app) as [[app' tr] [err|]] eqn:Hready.
  - exists app, app', tr. split; [reflexivity|now left].
  - destruct (addStaticData d app') as [err|] eqn:Hseed.
    + exists app, app', tr. split; [reflexivity|right; now split].
    + exists app, app', tr. repeat split; assumption.
Qed.

End NewWebserverFacts.

(** * Runs on the sample streams *)

Module Runs.

Import devAppServerInstance Stream.

Lemma never_ready_sample lines :
  forallb (fun text => negb (Regexp.readyRE text)) lines = true ->
  never_ready (map (fun text => (1000000%N, text)) lines).
Proof.
  intros Hall text Hin. unfold texts in Hin. rewrite map_map in Hin.
  simpl in Hin. rewrite map_id in Hin.
  rewrite forallb_forall in Hall. specialize (Hall text Hin).
  now destruct (Regexp.readyRE text).
Defined.

(** The module line alone, then closure: [AwaitReady] returns nil
    though no admin URL was captured and no ready line was seen, which
    refutes C1 as stated. *)
Lemma AwaitReady_nil_without_admin_or_ready :
  AwaitReady Sample.primary_only Sample.fresh
  = (set_baseURL (started Sample.fresh) Sample.localhost8080,
     [CmdStart; TimeAfter (90 * Second)], None)
  /\ adminURL (set_baseURL (started Sample.fresh) Sample.localhost8080) = None
  /\ never_ready (stderr_lines Sample.primary_only).
Proof.
  split; [reflexivity|]. split; [reflexivity|].
  now apply never_ready_sample.
Qed.

Lemma AwaitReady_nil_only_with_primary_witness :
  AwaitReady Sample.full_startup Sample.fresh
  = (Sample.ready, [CmdStart; TimeAfter (90 * Second)], None)
  /\ (start_error Sample.full_startup = None
      /\ (exists u, baseURL Sample.ready = Some u
                    /\ captured Regexp.hostRE (stderr_lines Sample.full_startup) u)
      /\ (forall a, adminURL Sample.ready = Some a ->
                    captured Regexp.adminURLRE (stderr_lines Sample.full_startup) a)
      /\ (ready_before (startupTimeout Sample.fresh) (stderr_lines Sample.full_startup)
          \/ closed_before (startupTimeout Sample.fresh)
                           (stderr_lines Sample.full_startup)
                           (stderr_end Sample.full_startup))).
Proof.
  split; [reflexivity|].
  apply (AwaitReady_nil_only_with_primary
           Sample.full_startup Sample.fresh Sample.ready
           [CmdStart; TimeAfter (90 * Second)]); reflexivity.
Defined.

(** The admin line and the module line, then closure before the
    deadline, without any ready line: [AwaitReady] returns nil, which
    refutes C2 as stated. *)
Lemma AwaitReady_nil_on_closed_stream :
  never_ready (stderr_lines Sample.closed_before_warmup)
  /\ closed_before (startupTimeout Sample.fresh)
                   (stderr_lines Sample.closed_before_warmup)
                   (stderr_end Sample.closed_before_warmup)
  /\ AwaitReady Sample.closed_before_warmup Sample.fresh
     = (Sample.ready, [CmdStart; TimeAfter (90 * Second)], None).
Proof.
  split; [now apply never_ready_sample|]. split; [|reflexivity].
  exists 0%N. split; reflexivity.
Qed.

Lemma AwaitReady_closed_without_ready_witness :
  let lines := stderr_lines Sample.admin_only in
  let err := Some errNoWebserverURL in
  err <> Some errTimeoutStarting
  /\ ~ In ProcessKill [CmdStart; TimeAfter (90 * Second)]
  /\ ((forall text, In text (texts lines) -> Regexp.hostRE text = None) ->
      err = Some errNoWebserverURL \/ parse_failure (H := GoURL.impl) lines err)
  /\ ((exists text, In text (texts lines) /\ Regexp.hostRE text <> None) ->
      err = None \/ parse_failure (H := GoURL.impl) lines err).
Proof.
  apply (AwaitReady_closed_without_ready
           Sample.admin_only Sample.fresh
           (set_adminURL (started Sample.fresh) Sample.localhost9999)).
  - reflexivity.
  - reflexivity.
  - now apply never_ready_sample.
  - exists 0%N. split; reflexivity.
  - reflexivity.
Defined.

(** The three lines as C3 words them lack the opening of the two
    endpoint patterns: nothing is captured and [AwaitReady] fails with
    the discovery failure, which refutes C3 as stated. *)
Lemma AwaitReady_unprefixed_lines_fail :
  stderr_lines Sample.unprefixed_lines
  = [(1000000%N, "admin server at: http://localhost:9999");
     (1000000%N, "module running at: http://localhost:8080");
     (1000000%N, "GET /_ah/warmup")]
  /\ AwaitReady Sample.unprefixed_lines Sample.fresh
     = (started Sample.fresh, [CmdStart; TimeAfter (90 * Second)],
        Some errNoWebserverURL).
Proof. split; reflexivity. Qed.

Lemma AwaitReady_admin_module_ready_witness :
  AwaitReady Sample.full_startup Sample.fresh
  = (Sample.ready, [CmdStart; TimeAfter (90 * Second)], None)
  /\ option_map url_String (baseURL Sample.ready) = Some "http://localhost:8080"
  /\ option_map url_String (adminURL Sample.ready) = Some "http://localhost:9999".
Proof.
  split; [|split; reflexivity].
  apply (AwaitReady_admin_module_ready
           Sample.fresh Sample.localhost8080 Sample.localhost9999
           1000000 1000000 1000000 Sample.warmupLine [] (EOF 0));
    reflexivity.
Defined.

Lemma AwaitReady_timeout_kills_witness :
  AwaitReady Sample.silent Sample.fresh
  = (started Sample.fresh,
     [CmdStart; TimeAfter (90 * Second); ProcessKill],
     Some errTimeoutStarting)
  /\ ([CmdStart; TimeAfter (90 * Second); ProcessKill]
      = [CmdStart; TimeAfter (startupTimeout Sample.fresh); ProcessKill]
      /\ Some errTimeoutStarting = Some errTimeoutStarting
      /\ errTimeoutStarting <> errNoWebserverURL
      /\ (forall cause, errTimeoutStarting <> ReadStderrf cause)).
Proof.
  split; [reflexivity|].
  apply (AwaitReady_timeout_kills
           Sample.silent Sample.fresh (started Sample.fresh));
    reflexivity.
Defined.

Lemma ready_line_stops_scan_witness :
  Regexp.readyRE Sample.warmup_and_module = true
  /\ Regexp.hostRE Sample.warmup_and_module = Some "http://localhost:1"
  /\ scan_line Sample.fresh Sample.warmup_and_module = Break
  /\ AwaitReady (Sample.stream [Sample.moduleLine "http://localhost:8080";
                                Sample.warmup_and_module;
                                Sample.moduleLine "http://localhost:2"]
                               (EOF 0)) Sample.fresh
     = AwaitReady (Sample.stream [Sample.moduleLine "http://localhost:8080";
                                  Sample.warmup_and_module] Stalled)
                  Sample.fresh.
Proof.
  split; [reflexivity|]. split; [reflexivity|].
  destruct (ready_line_stops_scan (H := GoURL.impl)
              Sample.warmup_and_module eq_refl) as [Hline Hrest].
  split; [apply Hline|].
  exact (Hrest Sample.fresh None
               [(1000000%N, Sample.moduleLine "http://localhost:8080")]
               1000000%N
               [(1000000%N, Sample.moduleLine "http://localhost:2")] []
               (EOF 0) Stalled).
Defined.

Lemma Close_quit_undelivered_witness :
  Close Sample.refused Sample.ready
  = ([CmdWait; HTTPGet "http://localhost:9999/quit"; ProcessKill],
     Returned (Some (QuitHandlerf "dial tcp 127.0.0.1:9999: connection refused")))
  /\ ~ In (TimeAfter gracePeriod) (fst (Close Sample.refused Sample.ready)).
Proof.
  apply (Close_quit_undelivered
           Sample.refused Sample.ready Sample.localhost9999); reflexivity.
Defined.

Lemma Close_quit_delivered_witness :
  Close Sample.graceful Sample.ready
  = ([CmdWait; HTTPGet "http://localhost:9999/quit"; BodyClose;
      TimeAfter (15 * Second)], Returned None)
  /\ Close Sample.stuck Sample.ready
     = ([CmdWait; HTTPGet "http://localhost:9999/quit"; BodyClose;
         TimeAfter (15 * Second); ProcessKill],
        Returned (Some errTimeoutKilling)).
Proof.
  split.
  - apply (proj1 (proj2 (Close_quit_delivered
                           Sample.graceful Sample.ready Sample.localhost9999
                           eq_refl eq_refl eq_refl))
                 2000000000%N eq_refl).
    reflexivity.
  - apply (proj2 (proj2 (Close_quit_delivered
                           Sample.stuck Sample.ready Sample.localhost9999
                           eq_refl eq_refl eq_refl))).
    left. reflexivity.
Defined.

(** A path without leading slash is glued to the host, and to the
    port: the separator C7 promises is missing.  And a local server
    that has discovered an https address answers with that scheme. *)
Lemma GetWebappURL_missing_separator :
  remoteAppServer.GetWebappURL {| remoteAppServer.host := "staging.wpt.fyi" |} "foo"
  = "https://staging.wpt.fyifoo"
  /\ "https://staging.wpt.fyifoo" <> joined "https://staging.wpt.fyi" "foo"
  /\ GetWebappURL Sample.fresh "foo" = "http://localhost:8080foo"
  /\ "http://localhost:8080foo" <> joined "http://localhost:8080" "foo"
  /\ GoURL.Parse "https://localhost:8443" = inl Sample.localhost8443
  /\ GetWebappURL (set_baseURL Sample.fresh Sample.localhost8443) "/foo"
     = "https://localhost:8443/foo".
Proof. repeat split; discriminate. Qed.

Lemma GetWebappURL_appends_path_witness :
  remoteAppServer.GetWebappURL {| remoteAppServer.host := "staging.wpt.fyi" |} "/foo"
  = "https://staging.wpt.fyi/foo"
  /\ GetWebappURL Sample.fresh "/foo" = "http://localhost:8080/foo".
Proof.
  destruct (GetWebappURL_appends_path
              {| remoteAppServer.host := "staging.wpt.fyi" |}
              Sample.fresh "/foo" eq_refl) as (Hremote & Hlocal & _).
  split; [exact Hremote|exact Hlocal].
Defined.

(** The command cannot be started: [NewWebserver] panics with the
    error of [AwaitReady] instead of returning it, which refutes C8 as
    stated. *)
Lemma NewWebserver_spawn_failure_panics :
  NewWebserver (H := GoURL.impl) Sample.local_flags Sample.construction_ok
               Sample.spawn_fails Sample.seeding_ok
  = Panicked (PanicError
                (External "exec: dev_appserver.py: executable file not found")).
Proof. reflexivity. Qed.

Lemma NewWebserver_local_failures_witness :
  exists (app app' : t (H := GoURL.impl)) tr,
    newDevAppServer Sample.construction_ok = Returned (Some app, None)
    /\ (AwaitReady Sample.silent app = (app', tr, Some errTimeoutStarting)
        \/ (AwaitReady Sample.silent app = (app', tr, None)
            /\ addStaticData Sample.seeding_ok app' = Some errTimeoutStarting)).
Proof.
  exact (NewWebserver_local_failures (H := GoURL.impl)
           Sample.local_flags Sample.construction_ok Sample.silent
           Sample.seeding_ok eq_refl).
Defined.

Lemma GetWebappURL_local_total_witness :
  GetWebappURL Sample.fresh "/results" = "http://localhost:8080/results"
  /\ GetWebappURL Sample.ready "/results" = "http://localhost:8080/results".
Proof.
  destruct (GetWebappURL_local_total
              Sample.construction_ok Sample.fresh Sample.full_startup
              Sample.ready [CmdStart; TimeAfter (90 * Second)] None
              "/results" eq_refl eq_refl) as (_ & Hbefore & _ & Hafter).
  split; [exact Hbefore|exact Hafter].
Defined.

End Runs.

(** * What the patterns accept *)

Module PatternFacts.

Import Regexp Capture.

Lemma strip_prefix_append lit s : Bytes.strip_prefix lit (lit ++ s) = Some s.
Proof.
  induction lit as [|a lit IH]; simpl; [reflexivity|].
  now rewrite Ascii.eqb_refl.
Qed.


(** An anchored match is the literal followed by a byte that is no
    space, and the other way round. *)
Lemma match_here_opens lit s :
  match_here lit s <> None <-> opens_match lit s.
Proof.
  unfold match_here, opens_match. split.
  - destruct (Bytes.strip_prefix lit s) as [after|] eqn:Hstrip; [|congruence].
    apply RegexpFacts.strip_prefix_spec in Hstrip. subst s.
    destruct after as [|c after]; simpl; [congruence|].
    destruct (is_space c) eqn:Hc; [congruence|]. intros _. now exists c, after.
  - intros (c & rest & -> & Hc). rewrite strip_prefix_append. simpl.
    rewrite Hc. discriminate.
Qed.


Lemma find_submatch_found lit s :
  find_submatch lit s <> None <->
  exists before after, s = before ++ after /\ opens_match lit after.
Proof.
  split.
  - induction s as [|c s IH]; simpl.
    + destruct (match_here lit EmptyString) eqn:E; [|congruence]. intros _.
      exists EmptyString, EmptyString. split; [reflexivity|].
      apply match_here_opens. congruence.
    + destruct (match_here lit (String c s)) eqn:E.
      * intros _. exists EmptyString, (String c s). split; [reflexivity|].
        apply match_here_opens. congruence.
      * intros Hfind. destruct (IH Hfind) as (before & after & -> & Hopen).
        now exists (String c before), after.
  - intros (before & after & -> & Hopen). apply match_here_opens in Hopen.
    induction before as [|c before IH]; simpl.
    + destruct after; simpl; destruct (match_here lit _); congruence.
    + destruct (match_here lit (String c (before ++ after))); [discriminate|].
      exact IH.
Qed.

Lemma contains_found p s :
  Bytes.contains p s = true <-> exists before after, s = before ++ p ++ after.
Proof.
  split.
  - induction s as [|c s IH]; simpl.
    + destruct (Bytes.strip_prefix p EmptyString) as [after|] eqn:E; [|discriminate].
      intros _. apply RegexpFacts.strip_prefix_spec in E.
      now exists EmptyString, after.
    + destruct (Bytes.strip_prefix p (String c s)) as [after|] eqn:E.
      * intros _. apply RegexpFacts.strip_prefix_spec in E.
        now exists EmptyString, after.
      * intros Hin. destruct (IH Hin) as (before & after & ->).
        now exists (String c before), after.
  - intros (before & after & ->).
    induction before as [|c before IH]; simpl.
    + pose proof (strip_prefix_append p after) as Hp.
      destruct (p ++ after); simpl in *; now rewrite Hp.
    + destruct (Bytes.strip_prefix p (String c (before ++ p ++ after)));
        [reflexivity|exact IH].
Qed.

(** X1.  Which lines the three patterns match.  The ready pattern
    matches the lines that contain [GET /_ah/warmup]; each endpoint
    pattern matches the lines that contain its literal followed by a
    byte that is not a space. *)
Theorem patterns_match_iff text :
  (readyRE text = true <->
   exists before after, text = before ++ readyLiteral ++ after)
  /\ (hostRE text <> None <->
      exists before after, text = before ++ after /\ opens_match hostLiteral after)
  /\ (adminURLRE text <> None <->
      exists before after, text = before ++ after /\ opens_match adminLiteral after).
Proof.
  split; [apply contains_found|]. split; apply find_submatch_found.
Qed.



End PatternFacts.

(** * More about AwaitReady *)

Section AwaitReadyMore.

Context `{NetURL}.

Import devAppServerInstance Stream ScanSpec ScannerFacts Capture.

Lemma scan_line_break i text :
  scan_line i text = Break -> Regexp.readyRE text = true.
Proof.
  unfold scan_line, scan_admin.
  destruct (Regexp.readyRE text); [reflexivity|].
  destruct (Regexp.hostRE text) as [tok|];
    [destruct (url_Parse tok)|];
    try (destruct (Regexp.adminURLRE text) as [tok'|];
         [destruct (url_Parse tok')|]); discriminate.
Qed.

(** What a line that lets the loop go on has done to the two fields. *)
Lemma scan_line_next i text j :
  scan_line i text = Next j ->
  Regexp.readyRE text = false
  /\ match Regexp.hostRE text with
     | Some token => exists u, url_Parse token = inl u /\ baseURL j = Some u
     | None => baseURL j = baseURL i
     end
  /\ match Regexp.adminURLRE text with
     | Some token => exists u, url_Parse token = inl u /\ adminURL j = Some u
     | None => adminURL j = adminURL i
     end.
Proof.
  unfold scan_line, scan_admin.
  destruct (Regexp.readyRE text); [discriminate|].
  destruct (Regexp.hostRE text) as [tok|];
    [destruct (url_Parse tok) as [u|] eqn:Hu|];
    try (destruct (Regexp.adminURLRE text) as [tok'|];
         [destruct (url_Parse tok') as [u'|] eqn:Hu'|]);
    try discriminate; intros [= <-];
    (split; [reflexivity|split]); simpl; eauto.
Qed.

(** A line never clears a field. *)
Lemma scan_line_keeps i text :
  match scan_line i text with
  | Break => True
  | Next j | Fail j _ =>
      (baseURL i <> None -> baseURL j <> None)
      /\ (adminURL i <> None -> adminURL j <> None)
  end.
Proof.
  unfold scan_line, scan_admin.
  destruct (Regexp.readyRE text); [exact I|].
  destruct (Regexp.hostRE text) as [tok|];
    [destruct (url_Parse tok) as [u|]|];
    try (destruct (Regexp.adminURLRE text) as [tok'|];
         [destruct (url_Parse tok') as [u'|]|]);
    simpl; split; trivial; discriminate.
Qed.

Lemma scanner_keeps deadline lines tail :
  forall elapsed i i' r,
    scanner deadline elapsed lines tail i = (i', r) ->
    (baseURL i <> None -> baseURL i' <> None)
    /\ (adminURL i <> None -> adminURL i' <> None).
Proof.
  induction lines as [|[delay text] rest IH]; intros elapsed i i' r; simpl.
  - destruct tail as [delay|delay text|];
      try destruct (_ <? _)%Z; intros [= <- <-]; now split.
  - destruct (_ <? _)%Z; [|intros [= <- <-]; now split].
    pose proof (scan_line_keeps i text) as Hkeep.
    destruct (scan_line i text) as [|j|j e].
    + intros [= <- <-]; now split.
    + intros Hrun. destruct (IH _ _ _ _ Hrun) as [Hb Ha].
      destruct Hkeep as [Hb' Ha']. split; auto.
    + intros [= <- <-]. exact Hkeep.
Qed.

(** When the scanner reports no error, each field holds the parse of
    the last token found before the ready line. *)
Lemma scanner_last_capture deadline lines tail :
  forall elapsed i i',
    scanner deadline elapsed lines tail i = (i', Sent None) ->
    holds_last Regexp.hostRE lines (baseURL i) (baseURL i')
    /\ holds_last Regexp.adminURLRE lines (adminURL i) (adminURL i').
Proof.
  unfold holds_last.
  induction lines as [|[delay text] rest IH]; intros elapsed i i'; simpl.
  - destruct tail as [delay|delay text|];
      try destruct (_ <? _)%Z; try discriminate.
    intros [= <-]. now split.
  - destruct (_ <? _)%Z; [|discriminate].
    destruct (scan_line i text) as [|j|j e] eqn:Hline; [| |discriminate].
    + intros [= <-]. rewrite (scan_line_break _ _ Hline). now split.
    + intros Hrun. destruct (scan_line_next _ _ _ Hline) as (-> & Hb & Ha).
      destruct (IH _ _ _ Hrun) as [Hb' Ha']. simpl. split.
      * destruct (last_token Regexp.hostRE (before_ready rest)); [exact Hb'|].
        rewrite Hb'. exact Hb.
      * destruct (last_token Regexp.adminURLRE (before_ready rest)); [exact Ha'|].
        rewrite Ha'. exact Ha.
Qed.

Lemma AwaitReady_last_capture env i i' tr :
  AwaitReady env i = (i', tr, None) ->
  holds_last Regexp.hostRE (stderr_lines env) (baseURL i) (baseURL i')
  /\ holds_last Regexp.adminURLRE (stderr_lines env) (adminURL i) (adminURL i').
Proof.
  unfold AwaitReady. destruct (start_error env); [discriminate|].
  destruct (scanner _ _ _ _ _) as [j r] eqn:Hrun.
  destruct r as [[e|]|]; try discriminate.
  apply scanner_last_capture in Hrun. simpl in Hrun.
  destruct (baseURL j) eqn:Hj; [|discriminate].
  intros [= <- <-]. now rewrite Hj.
Qed.

(** X3.  The last address wins.  When [AwaitReady] returns nil, the
    primary URL of the instance is the parse of the token of the last
    line matching the module pattern among the lines before the first
    ready line, and the admin URL is the parse of the token of the last
    such line matching the admin pattern, or what the instance held
    before if there is none: a later line overwrites an earlier
    capture, and lines from the ready line on count for nothing. *)
Theorem AwaitReady_last_capture_wins env i i' tr :
  AwaitReady env i = (i', tr, None) ->
  holds_last Regexp.hostRE (stderr_lines env) (baseURL i) (baseURL i')
  /\ holds_last Regexp.adminURLRE (stderr_lines env) (adminURL i) (adminURL i').
Proof.
  unfold AwaitReady. destruct (start_error env); [discriminate|].
  destruct (scanner _ _ _ _ _) as [j r] eqn:Hrun.
  destruct r as [[e|]|]; try discriminate.
  destruct (scanner_last_capture _ _ _ _ _ _ Hrun) as [Hb Ha]. simpl in Hb, Ha.
  destruct (baseURL j) eqn:Hj; [|discriminate].
  intros [= <- <-]. rewrite Hj. now split.
Qed.

(** X4.  An address printed too late is not seen.  On an instance
    without base URL, when no line before the first ready line matches
    the module pattern, [AwaitReady] returns an error, whatever the
    later lines say; if that error is the discovery failure, the
    instance still has no base URL. *)
Theorem AwaitReady_needs_module_before_ready env i i' tr err :
  baseURL i = None ->
  last_token Regexp.hostRE (before_ready (stderr_lines env)) = None ->
  AwaitReady env i = (i', tr, err) ->
  err <> None /\ (err = Some errNoWebserverURL -> baseURL i' = None).
Proof.
  intros Hbase Hlast Hrun. split.
  - intros ->. destruct (AwaitReady_last_capture _ _ _ _ Hrun) as [Hb _].
    unfold holds_last in Hb. rewrite Hlast, Hbase in Hb.
    revert Hrun. unfold AwaitReady. destruct (start_error env); [discriminate|].
    destruct (scanner _ _ _ _ _) as [j r]. destruct r as [[e|]|]; try discriminate.
    destruct (baseURL j) eqn:Hj; [|discriminate].
    intros [= <- <-]. congruence.
  - intros ->. revert Hrun. unfold AwaitReady.
    destruct (start_error env); [discriminate|].
    destruct (scanner _ _ _ _ _) as [j r]. destruct r as [[e|]|]; try discriminate.
    destruct (baseURL j) eqn:Hj; [discriminate|].
    now intros [= <- <-].
Qed.

(** X5.  The calls of [AwaitReady].  It starts the command first; it
    arms the timer exactly when the command started; and it kills the
    child, as its last call, exactly when it returns the timeout error:
    after a discovery failure, a parse failure or a read error the
    child is left running. *)
Theorem AwaitReady_kills_only_on_timeout env i i' tr err :
  AwaitReady env i = (i', tr, err) ->
  (tr = [CmdStart]
   \/ tr = [CmdStart; TimeAfter (startupTimeout i)]
   \/ tr = [CmdStart; TimeAfter (startupTimeout i); ProcessKill])
  /\ (In (TimeAfter (startupTimeout i)) tr <-> start_error env = None)
  /\ (In ProcessKill tr <-> err = Some errTimeoutStarting).
Proof.
  unfold AwaitReady. destruct (start_error env) as [e|].
  - intros [= <- <- <-]. split; [now left|]. simpl.
    split; split; try discriminate; intuition discriminate.
  - destruct (scanner _ _ _ _ _) as [j r] eqn:Hrun.
    apply scanner_spec in Hrun. destruct Hrun as ((Hcmd & _) & _).
    destruct r as [[e|]|].
    + intros [= <- <- <-]. split; [right; now left|]. simpl.
      split; split; try discriminate; intuition discriminate.
    + destruct (baseURL j); intros [= <- <- <-];
        (split; [right; now left|]); simpl;
        split; split; try discriminate; intuition discriminate.
    + rewrite Hcmd. simpl. intros [= <- <- <-].
      split; [right; now right|]. simpl. split; split; auto.
Qed.

(** X6.  The errors of [AwaitReady].  It returns nil only with a base
    URL in the instance.  An error is the error of [cmd.Start] as it
    is, with the instance untouched; or the wrapped read error of the
    stream; or the wrapped failure of [url.Parse] on a captured token;
    or the discovery failure, with no base URL in the instance; or the
    timeout. *)
Theorem AwaitReady_errors env i i' tr err :
  AwaitReady env i = (i', tr, err) ->
  match err with
  | None => start_error env = None /\ baseURL i' <> None
  | Some e =>
      (exists text, start_error env = Some text /\ e = External text /\ i' = i)
      \/ (exists delay text, stderr_end env = ReadError delay text
                             /\ e = ReadStderrf (External text))
      \/ parse_failure (stderr_lines env) err
      \/ (e = errNoWebserverURL /\ baseURL i' = None)
      \/ e = errTimeoutStarting
  end.
Proof.
  unfold AwaitReady. destruct (start_error env) as [e|].
  - intros [= <- <- <-]. left. now exists e.
  - destruct (scanner _ _ _ _ _) as [j r] eqn:Hrun.
    apply scanner_spec in Hrun. destruct Hrun as (_ & _ & _ & Hr).
    destruct r as [[e|]|].
    + intros [= <- <- <-]. destruct Hr as [(delay & text & Hend & ->)|Hfail].
      * right. left. now exists delay, text.
      * right. right. now left.
    + destruct (baseURL j) eqn:Hj; intros [= <- <- <-].
      * split; [reflexivity|congruence].
      * right. right. right. left. now split.
    + destruct (Process (cmd j)); intros [= <- <- <-]; repeat right; reflexivity.
Qed.

(** X7.  What [AwaitReady] leaves alone.  Whatever it returns, the name
    and arguments of the command, the startup timeout, the host and the
    two ports are as before, and a URL field that held a URL still
    holds one. *)
Theorem AwaitReady_keeps_settings env i i' tr err :
  AwaitReady env i = (i', tr, err) ->
  Path (cmd i') = Path (cmd i) /\ Args (cmd i') = Args (cmd i)
  /\ startupTimeout i' = startupTimeout i
  /\ host i' = host i /\ port i' = port i /\ apiPort i' = apiPort i
  /\ (baseURL i <> None -> baseURL i' <> None)
  /\ (adminURL i <> None -> adminURL i' <> None)
  /\ (Process (cmd i) = true -> Process (cmd i') = true).
Proof.
  unfold AwaitReady. destruct (start_error env) as [e|].
  - intros [= <- <- <-]. repeat split; trivial.
  - destruct (scanner _ _ _ _ _) as [j r] eqn:Hrun.
    pose proof (scanner_keeps _ _ _ _ _ _ _ Hrun) as [Hb Ha].
    apply scanner_spec in Hrun.
    destruct Hrun as ((Hcmd & Ht & Hh & Hp & Hap) & _).
    assert (Hj : Path (cmd j) = Path (cmd i) /\ Args (cmd j) = Args (cmd i)
                 /\ startupTimeout j = startupTimeout i
                 /\ host j = host i /\ port j = port i /\ apiPort j = apiPort i
                 /\ (baseURL i <> None -> baseURL j <> None)
                 /\ (adminURL i <> None -> adminURL j <> None)
                 /\ (Process (cmd i) = true -> Process (cmd j) = true)).
    { rewrite Hcmd. repeat split; assumption. }
    clear Hcmd Ht Hh Hp Hap Hb Ha. intros Hret.
    assert (Hi' : i' = j).
    { destruct r as [[e|]|]; [| |]; try congruence.
      destruct (baseURL j); congruence. }
    now subst i'.
Qed.

Lemma scan_line_unparsable i text :
  unparsable text ->
  exists j token cause,
    scan_line i text = Fail j (ParseURLf token cause)
    /\ url_Parse token = inr cause.
Proof.
  intros (Hready & token & cause & Hre & Hparse).
  unfold scan_line, scan_admin. rewrite Hready.
  destruct (Regexp.hostRE text) as [tok|] eqn:Hhost;
    [destruct (url_Parse tok) as [u|c] eqn:Hu|];
    try (destruct (Regexp.adminURLRE text) as [tok'|] eqn:Hadmin;
         [destruct (url_Parse tok') as [u'|c'] eqn:Hu'|]);
    try (eexists _, _, _; split; [reflexivity|eassumption]);
    destruct Hre as [[= <-]|[= <-]]; congruence.
Qed.

Lemma scanner_stops_at_failure deadline pre delay text post post' tail tail' :
  unparsable text ->
  forall elapsed i,
    scanner deadline elapsed (pre ++ (delay, text) :: post) tail i
    = scanner deadline elapsed (pre ++ (delay, text) :: post') tail' i.
Proof.
  intros Hbad. induction pre as [|[d tx] pre IH]; intros elapsed i; simpl.
  - destruct (scan_line_unparsable i text Hbad) as (j & token & cause & -> & _).
    reflexivity.
  - destruct (elapsed + Z.of_N d <? deadline)%Z; [|reflexivity].
    destruct (scan_line i tx); try reflexivity. apply IH.
Qed.

Lemma scanner_fails_at_failure deadline pre delay text post tail :
  never_ready pre -> unparsable text ->
  forall elapsed i,
    snd (scanner deadline elapsed (pre ++ (delay, text) :: post) tail i)
    <> Sent None.
Proof.
  intros Hnever Hbad. induction pre as [|[d tx] pre IH]; intros elapsed i; simpl.
  - destruct (scan_line_unparsable i text Hbad) as (j & token & cause & -> & _).
    destruct (_ <? _)%Z; discriminate.
  - destruct (_ <? _)%Z; [|discriminate].
    destruct (scan_line i tx) as [|j|j e] eqn:Hline.
    + apply scan_line_break in Hline.
      rewrite (Hnever tx) in Hline; [discriminate|now left].
    + apply IH. intros t Ht. apply Hnever. now right.
    + discriminate.
Qed.

(** X12.  An address that does not parse ends the scan.  Nothing that
    follows a line with a token [url.Parse] rejects changes what
    [AwaitReady] returns; and when no earlier line carries the ready
    marker, [AwaitReady] does not return nil, even if a good address
    follows. *)
Theorem unparsable_line_stops_scan text :
  unparsable text ->
  (forall i start pre delay post post' tail tail',
      AwaitReady {| start_error := start;
                    stderr_lines := pre ++ (delay, text) :: post;
                    stderr_end := tail |} i
      = AwaitReady {| start_error := start;
                      stderr_lines := pre ++ (delay, text) :: post';
                      stderr_end := tail' |} i)
  /\ (forall i start pre delay post tail,
        never_ready pre ->
        snd (AwaitReady {| start_error := start;
                           stderr_lines := pre ++ (delay, text) :: post;
                           stderr_end := tail |} i) <> None).
Proof.
  intros Hbad. split.
  - intros i start pre delay post post' tail tail'. unfold AwaitReady. simpl.
    now rewrite (scanner_stops_at_failure _ pre delay text post post' tail tail' Hbad).
  - intros i start pre delay post tail Hnever. unfold AwaitReady. simpl.
    destruct start; [discriminate|].
    pose proof (scanner_fails_at_failure (startupTimeout i) pre delay text post
                  tail Hnever Hbad 0%Z (started i)) as Hfail.
    destruct (scanner _ _ _ _ _) as [j r]. simpl in Hfail.
    destruct r as [[e|]|]; [discriminate|congruence|].
    destruct (Process (cmd j)); discriminate.
Qed.

End AwaitReadyMore.

(** * More about Close and the handle NewWebserver returns *)

Section HandleFacts.

Context `{NetURL}.

Import devAppServerInstance Stream ScanSpec ScannerFacts Capture.

(** X8.  The outcomes of [Close] on a started instance that knows its
    admin URL.  It never panics; it asks the quit handler first.  It
    returns nil exactly when the request was delivered and [cmd.Wait]
    returned nil within the grace period.  It kills the child exactly
    when it returns the delivery failure or the timeout error; an exit
    error of the child is returned as it is, and then nothing was
    killed. *)
Theorem Close_outcomes env i admin tr r :
  adminURL i = Some admin ->
  Process (cmd i) = true ->
  Close env i = (tr, r) ->
  let quit := url_String admin ++ "/quit" in
  exists err rest,
    r = Returned err
    /\ tr = CmdWait :: HTTPGet quit :: rest
    /\ (err = None <->
        http_Get env quit = None
        /\ exists delay, wait_result env = Some (delay, None)
                         /\ (Z.of_N delay < 15 * Second)%Z)
    /\ (In ProcessKill tr <->
        (exists cause, err = Some (QuitHandlerf cause))
        \/ err = Some errTimeoutKilling)
    /\ (forall text, err = Some (External text) ->
          exists delay, wait_result env = Some (delay, Some text)
                        /\ (Z.of_N delay < 15 * Second)%Z).
Proof.
  intros Hadmin Hproc. unfold Close, kill_then, gracePeriod.
  rewrite Hadmin, Hproc.
  destruct (http_Get env (url_String admin ++ "/quit")) as [cause|] eqn:Hget;
    [|destruct (wait_result env) as [[delay [text|]]|] eqn:Hwait;
      [destruct (Z.ltb_spec (Z.of_N delay) (15 * Second))
      |destruct (Z.ltb_spec (Z.of_N delay) (15 * Second))|]];
    intros [= <- <-]; simpl; eexists _, _;
    (split; [reflexivity|]); (split; [reflexivity|]); (split; [|split]).
  all: try (split; intros).
  all: repeat match goal with
         | Hc : _ /\ _ |- _ => destruct Hc
         | Hc : exists _, _ |- _ => destruct Hc
         | Hc : _ \/ _ |- _ => destruct Hc
         end; try discriminate; try congruence.
  all: try contradiction.
  all: try (match goal with
            | Hc : Some (_, _) = Some (_, _) |- _ =>
                inversion Hc; subst; unfold Second in *; lia
            end).
  all: try (left; eexists; reflexivity).
  all: try (right; reflexivity).
  all: try (intros ? [= <-]; eexists; split; [reflexivity|assumption]).
  all: try (split; [reflexivity|eexists; split; [reflexivity|assumption]]).
  all: intuition reflexivity.
Qed.

Lemma AwaitReady_nil_started env i i' tr :
  AwaitReady env i = (i', tr, None) -> Process (cmd i') = true.
Proof.
  unfold AwaitReady. destruct (start_error env); [discriminate|].
  destruct (scanner _ _ _ _ _) as [j r] eqn:Hrun.
  apply scanner_spec in Hrun. destruct Hrun as ((Hcmd & _) & _).
  destruct r as [[e|]|]; try discriminate.
  destruct (baseURL j); [|discriminate].
  intros [= <- <-]. now rewrite Hcmd.
Qed.

(** X9.  The URLs of the handle.  When [NewWebserver] returns without
    error, [GetWebappURL] on the handle never panics and is a fixed
    prefix followed by the path: [https://] and the remote host flag in
    staging mode; otherwise the string form of the parse of the last
    module address printed before the ready line.  The fallback built
    from host and port is never what a caller of [NewWebserver] gets. *)
Theorem NewWebserver_handle_urls fl c s d srv :
  NewWebserver fl c s d = Returned (srv, None) ->
  exists prefix,
    (forall path, Handle.GetWebappURL srv path = Returned (prefix ++ path))
    /\ (if staging fl
        then prefix = "https://" ++ remoteHost fl
        else exists token u,
            last_token Regexp.hostRE (before_ready (stderr_lines s)) = Some token
            /\ url_Parse token = inl u
            /\ prefix = url_String u).
Proof.
  unfold NewWebserver. destruct (staging fl).
  - intros [= <-]. exists ("https://" ++ remoteHost fl). split; [|reflexivity].
    intros path. reflexivity.
  - unfold newDevAppServer.
    destruct (filepath_Abs c) as [abs|text]; [|discriminate].
    destruct (StderrPipe c) as [text|]; [discriminate|].
    match goal with |- context [AwaitReady s ?a] => set (app := a) end.
    destruct (AwaitReady s app) as [[app' tr] [err|]] eqn:Hready; [discriminate|].
    destruct (addStaticData d app'); [discriminate|].
    intros [= <-].
    destruct (AwaitReady_last_capture _ _ _ _ Hready) as [Hb _].
    unfold holds_last in Hb.
    assert (Hsome : baseURL app' <> None).
    { revert Hready. unfold AwaitReady. destruct (start_error s); [discriminate|].
      destruct (scanner _ _ _ _ _) as [j r]. destruct r as [[e|]|]; try discriminate.
      destruct (baseURL j) eqn:Hj; [|discriminate].
      intros [= <- <-]. congruence. }
    destruct (last_token Regexp.hostRE _) as [token|].
    + destruct Hb as (u & Hparse & Hu). exists (url_String u).
      split; [|now exists token, u].
      intros path. simpl. unfold GetWebappURL. now rewrite Hu.
    + simpl in Hb. congruence.
Qed.

(** X10.  Closing the handle.  When [NewWebserver] returns without
    error, [Close] on the handle of staging mode does nothing and
    returns nil.  On the handle of a local server it panics on the nil
    admin URL, with no request made, exactly when no admin line was
    printed before the ready line; otherwise it asks the quit handler
    of the last admin address printed before the ready line. *)
Theorem NewWebserver_handle_close fl c s d srv senv :
  NewWebserver fl c s d = Returned (srv, None) ->
  if staging fl
  then Handle.Close senv srv = ([], Returned None)
  else match last_token Regexp.adminURLRE (before_ready (stderr_lines s)) with
       | None => Handle.Close senv srv = ([CmdWait], Panicked NilDereference)
       | Some token =>
           exists u err rest,
             url_Parse token = inl u
             /\ Handle.Close senv srv
                = (CmdWait :: HTTPGet (url_String u ++ "/quit") :: rest,
                   Returned err)
       end.
Proof.
  unfold NewWebserver. destruct (staging fl).
  - now intros [= <-].
  - unfold newDevAppServer.
    destruct (filepath_Abs c) as [abs|text]; [|discriminate].
    destruct (StderrPipe c) as [text|]; [discriminate|].
    match goal with |- context [AwaitReady s ?a] => set (app := a) end.
    destruct (AwaitReady s app) as [[app' tr] [err|]] eqn:Hready; [discriminate|].
    destruct (addStaticData d app'); [discriminate|].
    intros [= <-]. simpl.
    pose proof (AwaitReady_nil_started _ _ _ _ Hready) as Hproc.
    destruct (AwaitReady_last_capture _ _ _ _ Hready) as [_ Ha].
    unfold holds_last in Ha. unfold Close, kill_then. rewrite Hproc.
    destruct (last_token Regexp.adminURLRE _) as [token|].
    + destruct Ha as (u & Hparse & ->). exists u.
      destruct (http_Get senv _); [eexists _, _; now split|].
      destruct (wait_result senv) as [[delay exit]|]; [|eexists _, _; now split].
      destruct (_ <? _)%Z; eexists _, _; now split.
    + now rewrite Ha.
Qed.

(** X11.  The ports of the side channels.  On an instance
    [newDevAppServer] has built, before and after [AwaitReady] and
    whatever address the child has announced, [NewContext] asks
    [remote_api] for [localhost] and the second port picked, and the
    seeding command is given the first port as local host and the
    second as remote API host. *)
Theorem side_channels_use_picked_ports c i env i' tr err :
  newDevAppServer c = Returned (Some i, None) ->
  AwaitReady env i = (i', tr, err) ->
  let web := Fmt.d (fst (pickUnusedPort c)) in
  let api := Fmt.d (snd (pickUnusedPort c)) in
  (forall (Context : Type) (remote : string -> Context * option error),
      RemoteAPI.NewContext remote i = remote ("localhost:" ++ api)
      /\ RemoteAPI.NewContext remote i' = remote ("localhost:" ++ api))
  /\ RemoteAPI.addStaticDataArgs i'
     = [ "run"; "../util/populate_dev_data.go";
         "--local_host=localhost:" ++ web;
         "--local_remote_api_host=localhost:" ++ api;
         "--remote_runs=false"; "--static_runs=true" ]
  /\ Args (cmd i')
     = ("--port=" ++ web) :: ("--api_port=" ++ api) :: skipn 2 (Args (cmd i)).
Proof.
  intros Hnew Hready web api. unfold newDevAppServer in Hnew.
  destruct (filepath_Abs c) as [abs|e]; [|discriminate].
  destruct (StderrPipe c); [discriminate|].
  injection Hnew as <-.
  destruct (AwaitReady_effect _ _ _ _ _ Hready) as (Hh & Hp & Ha & _).
  simpl in Hh, Hp, Ha.
  unfold RemoteAPI.NewContext, RemoteAPI.addStaticDataArgs.
  rewrite Hh, Hp, Ha. repeat split.
  revert Hready. unfold AwaitReady. destruct (start_error env).
  - now intros [= <- <- <-].
  - destruct (scanner _ _ _ _ _) as [j r] eqn:Hrun.
    apply scanner_spec in Hrun. destruct Hrun as ((Hcmd & _) & _).
    intros Hret.
    assert (Hi' : i' = j).
    { destruct r as [[e|]|]; [| |]; try congruence.
      destruct (baseURL j); congruence. }
    subst i'. now rewrite Hcmd.
Qed.

End HandleFacts.

(** * More runs on sample streams *)

Module MoreRuns.

Import devAppServerInstance Stream Capture.


Lemma AwaitReady_last_capture_wins_witness :
  AwaitReady Sample2.module_twice Sample.fresh
  = (set_baseURL Sample.ready Sample.localhost8443,
     [CmdStart; TimeAfter (90 * Second)], None)
  /\ holds_last (H := GoURL.impl) Regexp.hostRE (stderr_lines Sample2.module_twice)
                None (Some Sample.localhost8443)
  /\ holds_last (H := GoURL.impl) Regexp.adminURLRE (stderr_lines Sample2.module_twice)
                None (Some Sample.localhost9999).
Proof.
  split; [reflexivity|].
  exact (AwaitReady_last_capture_wins
           Sample2.module_twice Sample.fresh
           (set_baseURL Sample.ready Sample.localhost8443)
           [CmdStart; TimeAfter (90 * Second)] eq_refl).
Defined.

Lemma AwaitReady_needs_module_before_ready_witness :
  AwaitReady Sample2.warmup_first Sample.fresh
  = (started Sample.fresh, [CmdStart; TimeAfter (90 * Second)],
     Some errNoWebserverURL)
  /\ Some errNoWebserverURL <> None
  /\ (Some errNoWebserverURL = Some errNoWebserverURL ->
      baseURL (started Sample.fresh) = None).
Proof.
  split; [reflexivity|].
  exact (AwaitReady_needs_module_before_ready
           Sample2.warmup_first Sample.fresh (started Sample.fresh)
           [CmdStart; TimeAfter (90 * Second)] (Some errNoWebserverURL)
           eq_refl eq_refl eq_refl).
Defined.

Lemma AwaitReady_kills_only_on_timeout_witness :
  let tr := [CmdStart; TimeAfter (90 * Second)] in
  (tr = [CmdStart]
   \/ tr = [CmdStart; TimeAfter (startupTimeout Sample.fresh)]
   \/ tr = [CmdStart; TimeAfter (startupTimeout Sample.fresh); ProcessKill])
  /\ (In (TimeAfter (startupTimeout Sample.fresh)) tr
      <-> start_error Sample.admin_only = None)
  /\ (In ProcessKill tr <-> Some errNoWebserverURL = Some errTimeoutStarting).
Proof.
  exact (AwaitReady_kills_only_on_timeout
           Sample.admin_only Sample.fresh
           (set_adminURL (started Sample.fresh) Sample.localhost9999)
           [CmdStart; TimeAfter (90 * Second)] (Some errNoWebserverURL)
           eq_refl).
Defined.

Lemma AwaitReady_errors_witness :
  let e := ReadStderrf (External "read |0: file already closed") in
  (exists text, start_error Sample2.broken_pipe = Some text
                /\ e = External text
                /\ Sample2.primary_known = Sample.fresh)
  \/ (exists delay text, stderr_end Sample2.broken_pipe = ReadError delay text
                         /\ e = ReadStderrf (External text))
  \/ parse_failure (H := GoURL.impl) (stderr_lines Sample2.broken_pipe) (Some e)
  \/ (e = errNoWebserverURL /\ baseURL Sample2.primary_known = None)
  \/ e = errTimeoutStarting.
Proof.
  exact (AwaitReady_errors
           Sample2.broken_pipe Sample.fresh Sample2.primary_known
           [CmdStart; TimeAfter (90 * Second)]
           (Some (ReadStderrf (External "read |0: file already closed")))
           eq_refl).
Defined.

Lemma AwaitReady_keeps_settings_witness :
  Path (cmd Sample.ready) = Path (cmd Sample.fresh)
  /\ Args (cmd Sample.ready) = Args (cmd Sample.fresh)
  /\ startupTimeout Sample.ready = startupTimeout Sample.fresh
  /\ host Sample.ready = host Sample.fresh
  /\ port Sample.ready = port Sample.fresh
  /\ apiPort Sample.ready = apiPort Sample.fresh
  /\ (baseURL Sample.fresh <> None -> baseURL Sample.ready <> None)
  /\ (adminURL Sample.fresh <> None -> adminURL Sample.ready <> None)
  /\ (Process (cmd Sample.fresh) = true -> Process (cmd Sample.ready) = true).
Proof.
  exact (AwaitReady_keeps_settings
           Sample.full_startup Sample.fresh Sample.ready
           [CmdStart; TimeAfter (90 * Second)] None eq_refl).
Defined.

Lemma Close_outcomes_witness :
  Close Sample2.exit_status_1 Sample.ready
  = ([CmdWait; HTTPGet "http://localhost:9999/quit"; BodyClose;
      TimeAfter (15 * Second)],
     Returned (Some (External "exit status 1")))
  /\ exists err rest,
      Returned (Some (External "exit status 1")) = Returned err
      /\ [CmdWait; HTTPGet "http://localhost:9999/quit"; BodyClose;
          TimeAfter (15 * Second)]
         = CmdWait :: HTTPGet "http://localhost:9999/quit" :: rest
      /\ (err = None <->
          http_Get Sample2.exit_status_1 "http://localhost:9999/quit" = None
          /\ exists delay, wait_result Sample2.exit_status_1 = Some (delay, None)
                           /\ (Z.of_N delay < 15 * Second)%Z)
      /\ (In ProcessKill [CmdWait; HTTPGet "http://localhost:9999/quit";
                          BodyClose; TimeAfter (15 * Second)] <->
          (exists cause, err = Some (QuitHandlerf cause))
          \/ err = Some errTimeoutKilling)
      /\ (forall text, err = Some (External text) ->
            exists delay,
              wait_result Sample2.exit_status_1 = Some (delay, Some text)
              /\ (Z.of_N delay < 15 * Second)%Z).
Proof.
  split; [reflexivity|].
  exact (Close_outcomes
           Sample2.exit_status_1 Sample.ready Sample.localhost9999
           [CmdWait; HTTPGet "http://localhost:9999/quit"; BodyClose;
            TimeAfter (15 * Second)]
           (Returned (Some (External "exit status 1")))
           eq_refl eq_refl eq_refl).
Defined.

Lemma NewWebserver_handle_urls_witness :
  NewWebserver Sample.local_flags Sample.construction_ok Sample.full_startup
               Sample.seeding_ok
  = Returned (DevAppServer (Some Sample.ready), None)
  /\ exists prefix,
      (forall path,
          Handle.GetWebappURL (DevAppServer (Some Sample.ready)) path
          = Returned (prefix ++ path))
      /\ exists token (u : GoURL.url),
          last_token Regexp.hostRE (before_ready (stderr_lines Sample.full_startup))
          = Some token
          /\ GoURL.Parse token = inl u
          /\ prefix = GoURL.String_ u.
Proof.
  split; [reflexivity|].
  exact (NewWebserver_handle_urls
           Sample.local_flags Sample.construction_ok Sample.full_startup
           Sample.seeding_ok (DevAppServer (Some Sample.ready)) eq_refl).
Defined.

Lemma NewWebserver_handle_close_witness :
  NewWebserver Sample.local_flags Sample.construction_ok
               Sample2.admin_after_warmup Sample.seeding_ok
  = Returned (DevAppServer (Some Sample2.primary_known), None)
  /\ Handle.Close Sample.graceful (DevAppServer (Some Sample2.primary_known))
     = ([CmdWait], Panicked NilDereference).
Proof.
  split; [reflexivity|].
  exact (NewWebserver_handle_close
           Sample.local_flags Sample.construction_ok
           Sample2.admin_after_warmup Sample.seeding_ok
           (DevAppServer (Some Sample2.primary_known)) Sample.graceful eq_refl).
Defined.

Lemma side_channels_use_picked_ports_witness :
  (forall (Context : Type) (remote : string -> Context * option error),
      RemoteAPI.NewContext remote Sample.fresh = remote "localhost:8081"
      /\ RemoteAPI.NewContext remote Sample.ready = remote "localhost:8081")
  /\ RemoteAPI.addStaticDataArgs Sample.ready
     = [ "run"; "../util/populate_dev_data.go";
         "--local_host=localhost:8080";
         "--local_remote_api_host=localhost:8081";
         "--remote_runs=false"; "--static_runs=true" ]
  /\ Args (cmd Sample.ready)
     = "--port=8080" :: "--api_port=8081" :: skipn 2 (Args (cmd Sample.fresh)).
Proof.
  exact (side_channels_use_picked_ports
           Sample.construction_ok Sample.fresh Sample.full_startup Sample.ready
           [CmdStart; TimeAfter (90 * Second)] None eq_refl eq_refl).
Defined.

Lemma unparsable_line_stops_scan_witness :
  unparsable (H := GoURL.impl) (Sample.moduleLine ":8080")
  /\ snd (AwaitReady (Sample.stream [Sample.adminLine "http://localhost:9999";
                                     Sample.moduleLine ":8080";
                                     Sample.moduleLine "http://localhost:8080";
                                     Sample.warmupLine] (EOF 0))
                     Sample.fresh) <> None.
Proof.
  assert (Hbad : unparsable (H := GoURL.impl) (Sample.moduleLine ":8080")).
  { split; [reflexivity|]. eexists _, _. split; [left|]; reflexivity. }
  split; [exact Hbad|].
  apply (proj2 (unparsable_line_stops_scan (Sample.moduleLine ":8080") Hbad)
               Sample.fresh None
               [(1000000%N, Sample.adminLine "http://localhost:9999")]
               1000000%N
               [(1000000%N, Sample.moduleLine "http://localhost:8080");
                (1000000%N, Sample.warmupLine)]
               (EOF 0)).
  intros text [<-|[]]. reflexivity.
Defined.

End MoreRuns.
